(** * Music download backend ([music-api/api/server.py])

    A shallow embedding of the request-to-file orchestration of the
    [/download] endpoint and of the deferred [cleanup_file] task.

    Python strings are modelled as [string] holding the UTF-8 bytes of the
    text.  The two string operations the handler performs, replacing ['/']
    and testing a prefix, agree on bytes and on code points, because the
    byte 0x2F occurs in UTF-8 only as the encoding of ['/'] and UTF-8 is
    prefix-free.  A Python string may also hold a surrogate code point
    (U+D800 to U+DFFF), which strict UTF-8 cannot encode; it is carried
    here by the three bytes ED A0..BF 80..BF, which no encodable text
    contains.

    The external collaborators (the extraction library, [uuid.uuid4],
    [tempfile.gettempdir], [os.listdir]) are inputs, gathered in the record
    [environment]; the filesystem seen by [cleanup_file] is a finite map
    from paths to nodes. *)

From Stdlib Require Import ZArith Ascii.
From stdpp Require Import gmap strings list pretty.

Open Scope string_scope.

(** ** Python exceptions *)

Module Py.

(** The exception classes that can flow through the handler. *)
Inductive exn_class : Set :=
| BaseException
| KeyboardInterrupt
| Exception
| OSError
| FileNotFoundError
| PermissionError
| IsADirectoryError
| ValueError
| TypeError
| AttributeError
| DownloadError          (* yt_dlp.utils.DownloadError *)
| HTTPExceptionClass     (* fastapi.HTTPException *)
| UnicodeError
| UnicodeEncodeError.

(** Direct base class; [BaseException] is the root. *)
Definition base (c : exn_class) : option exn_class :=
  match c with
  | BaseException => None
  | KeyboardInterrupt => Some BaseException
  | Exception => Some BaseException
  | OSError => Some Exception
  | FileNotFoundError => Some OSError
  | PermissionError => Some OSError
  | IsADirectoryError => Some OSError
  | ValueError => Some Exception
  | TypeError => Some Exception
  | AttributeError => Some Exception
  | DownloadError => Some Exception
  | HTTPExceptionClass => Some Exception
  | UnicodeError => Some ValueError
  | UnicodeEncodeError => Some UnicodeError
  end.

Definition class_eqb (c d : exn_class) : bool :=
  match c, d with
  | BaseException, BaseException
  | KeyboardInterrupt, KeyboardInterrupt
  | Exception, Exception
  | OSError, OSError
  | FileNotFoundError, FileNotFoundError
  | PermissionError, PermissionError
  | IsADirectoryError, IsADirectoryError
  | ValueError, ValueError
  | TypeError, TypeError
  | AttributeError, AttributeError
  | DownloadError, DownloadError
  | HTTPExceptionClass, HTTPExceptionClass
  | UnicodeError, UnicodeError
  | UnicodeEncodeError, UnicodeEncodeError => true
  | _, _ => false
  end.

(** [issubclass c d], walking up the (depth at most 4) hierarchy. *)
Fixpoint issubclass_fuel (n : nat) (c d : exn_class) : bool :=
  class_eqb c d ||
  match n with
  | O => false
  | S n' => match base c with
            | Some b => issubclass_fuel n' b d
            | None => false
            end
  end.

Definition issubclass : exn_class -> exn_class -> bool := issubclass_fuel 4.

(** A raised exception object.  [HTTPException] carries the two fields
    the framework reads to build the error response. *)
Inductive exn : Set :=
| PyExc (cls : exn_class) (msg : string)
| HTTPException (status_code : Z) (detail : string).

Definition class_of (e : exn) : exn_class :=
  match e with
  | PyExc c _ => c
  | HTTPException _ _ => HTTPExceptionClass
  end.

Definition isinstance (e : exn) (c : exn_class) : bool :=
  issubclass (class_of e) c.

(** [str(e)]: the message of a Python exception; for the framework's
    [HTTPException], whose [__str__] prints the status and the detail,
    ["<status_code>: <detail>"]. *)
Definition str (e : exn) : string :=
  match e with
  | PyExc _ m => m
  | HTTPException sc d => pretty sc +:+ ": " +:+ d
  end.

End Py.

Import Py.

(** ** Process state and the effect monad *)

(** What a path of the filesystem holds.  [ProtectedFile] is a file that
    the process is not allowed to unlink. *)
Inductive node : Set := RegularFile | ProtectedFile | Directory.

Inductive level : Set := INFO | WARNING | ERROR.

Record state : Type := mkState {
  files : gmap string node;          (* the filesystem *)
  logs : list (level * string);      (* records emitted through [logging] *)
  tasks : list string                (* [background_tasks]: paths queued for [cleanup_file] *)
}.

Inductive result (A : Type) : Type :=
| Returns (a : A)
| Raises (e : exn).
Arguments Returns {A} a.
Arguments Raises {A} e.

Definition M (A : Type) : Type := state -> result A * state.

Definition ret {A} (a : A) : M A := fun st => (Returns a, st).

Definition raise {A} (e : exn) : M A := fun st => (Raises e, st).

Definition bind {A B} (m : M A) (k : A -> M B) : M B :=
  fun st =>
    match m st with
    | (Returns a, st') => k a st'
    | (Raises e, st') => (Raises e, st')
    end.

Declare Scope py_scope.
Delimit Scope py_scope with py.
Notation "x <- m ;; k" := (bind m (fun x => k))
  (at level 100, m at next level, right associativity) : py_scope.
Notation "m ;; k" := (bind m (fun _ => k))
  (at level 100, right associativity) : py_scope.
Open Scope py_scope.

(** Lifting of a computed [result] (an answer of the environment). *)
Definition lift {A} (r : result A) : M A := fun st => (r, st).

(** [try: body  except C1 as e: h1 e  except C2 as e: h2 e ...]: the first
    clause whose class matches handles the exception; an exception raised
    by a handler is not offered to the later clauses. *)
Fixpoint dispatch {A} (handlers : list (exn_class * (exn -> M A))) (e : exn) : M A :=
  match handlers with
  | [] => raise e
  | (c, h) :: rest => if isinstance e c then h e else dispatch rest e
  end.

Definition try_except {A} (body : M A) (handlers : list (exn_class * (exn -> M A))) : M A :=
  fun st =>
    match body st with
    | (Returns a, st') => (Returns a, st')
    | (Raises e, st') => dispatch handlers e st'
    end.

(** [logging.info], [logging.warning], [logging.error] *)
Definition logging (l : level) (msg : string) : M unit :=
  fun st => (Returns tt, mkState (files st) (logs st ++ [(l, msg)]) (tasks st)).

(** ** Text as Python prints and encodes it *)

(** [c in s] for a character [c] *)
Fixpoint contains_char (s : string) (c : ascii) : bool :=
  match s with
  | EmptyString => false
  | String a rest => Ascii.eqb a c || contains_char rest c
  end.

Definition byte (c : ascii) : N := N_of_ascii c.

Definition hex_digit (n : N) : ascii :=
  ascii_of_N (if (n <? 10)%N then 48 + n else 87 + n).

(** The last [width] hexadecimal digits of [n], in lower case, as the
    format [%0<width>x] prints a number that fits. *)
Fixpoint hex (width : nat) (n : N) : string :=
  match width with
  | O => EmptyString
  | S w => hex w (n / 16) +:+ String (hex_digit (n mod 16)) EmptyString
  end.

(** The three bytes that carry a surrogate code point. *)
Definition is_surrogate (b1 b2 b3 : ascii) : bool :=
  ((byte b1 =? 237) && (160 <=? byte b2) && (byte b2 <=? 191)
   && (128 <=? byte b3) && (byte b3 <=? 191))%N.

Definition surrogate_code_point (b2 b3 : ascii) : N :=
  (53248 + (byte b2 - 128) * 64 + (byte b3 - 128))%N.

Definition starts_with_surrogate (s : string) : bool :=
  match s with
  | String b1 (String b2 (String b3 _)) => is_surrogate b1 b2 b3
  | _ => false
  end.

(** The number of consecutive surrogates at the head of [s]. *)
Fixpoint surrogate_run (s : string) : nat :=
  match s with
  | String b1 (String b2 (String b3 rest)) =>
      if is_surrogate b1 b2 b3 then S (surrogate_run rest) else O
  | _ => O
  end.

(** A byte 10xxxxxx continues a code point; every other byte starts one. *)
Definition is_continuation (b : ascii) : bool :=
  ((128 <=? byte b) && (byte b <? 192))%N.

(** The first surrogate of [s]: its index counted in code points, [pos]
    being the index of the code point that starts next, and the rest of
    the text from there on. *)
Fixpoint find_surrogate (s : string) (pos : nat) : option (nat * string) :=
  match s with
  | EmptyString => None
  | String b rest =>
      if starts_with_surrogate s then Some (pos, s)
      else find_surrogate rest (if is_continuation b then pos else S pos)
  end.

(** The exception of [s.encode('utf-8')] under strict error handling:
    [None] when [s] encodes.  The error spans the run of surrogates that
    starts at the first one; its text is that of
    [UnicodeEncodeError.__str__]. *)
Definition utf8_encode_error (s : string) : option exn :=
  match find_surrogate s 0 with
  | None => None
  | Some (pos, suffix) =>
      let run := surrogate_run suffix in
      Some (PyExc UnicodeEncodeError
        (if (run =? 1)%nat then
           "'utf-8' codec can't encode character '\u"
           +:+ match suffix with
               | String _ (String b2 (String b3 _)) => hex 4 (surrogate_code_point b2 b3)
               | _ => EmptyString
               end
           +:+ "' in position " +:+ pretty pos +:+ ": surrogates not allowed"
         else
           "'utf-8' codec can't encode characters in position "
           +:+ pretty pos +:+ "-" +:+ pretty (pos + run - 1)%nat
           +:+ ": surrogates not allowed"))
  end.

(** [repr(s)] of a string.  Python quotes with ['] unless the text holds a
    ['] and no double quote; it escapes the backslash, the quote in use,
    the control characters, the unprintable code points of Latin-1
    (U+0080 to U+00A0 and U+00AD, carried by the bytes C2 80..A0 and
    C2 AD) and the surrogates.  Code points above U+00FF other than
    surrogates are taken to be printable, which holds of letters, digits,
    punctuation, symbols and emoji. *)
Definition double_quote : ascii := ascii_of_nat 34.

Definition repr_quote (s : string) : ascii :=
  if contains_char s "'" && negb (contains_char s double_quote)
  then double_quote else "'"%char.

Definition repr_byte (q b : ascii) : string :=
  if Ascii.eqb b q || Ascii.eqb b "\" then String "\" (String b EmptyString)
  else if (byte b =? 9)%N then "\t"
  else if (byte b =? 10)%N then "\n"
  else if (byte b =? 13)%N then "\r"
  else if ((byte b <? 32) || (byte b =? 127))%N then "\x" +:+ hex 2 (byte b)
  else String b EmptyString.

Definition is_latin1_unprintable (b1 b2 : ascii) : bool :=
  ((byte b1 =? 194)
   && (((128 <=? byte b2) && (byte b2 <=? 160)) || (byte b2 =? 173)))%N.

Fixpoint repr_body (q : ascii) (s : string) : string :=
  match s with
  | EmptyString => EmptyString
  | String b1 rest1 =>
      match rest1 with
      | EmptyString => repr_byte q b1
      | String b2 rest2 =>
          if is_latin1_unprintable b1 b2 then
            "\x" +:+ hex 2 (byte b2) +:+ repr_body q rest2
          else
            match rest2 with
            | String b3 rest3 =>
                if is_surrogate b1 b2 b3 then
                  "\u" +:+ hex 4 (surrogate_code_point b2 b3) +:+ repr_body q rest3
                else repr_byte q b1 +:+ repr_body q rest1
            | EmptyString => repr_byte q b1 +:+ repr_body q rest1
            end
      end
  end.

Definition repr (s : string) : string :=
  let q := repr_quote s in
  String q (repr_body q s +:+ String q EmptyString).

(** ** The [os] primitives used by the cleanup task *)

Definition os_path_exists (path : string) : M bool :=
  fun st => (Returns (bool_decide (is_Some (files st !! path))), st).

(** [os.remove]: unlinks a regular file, and raises a subclass of
    [OSError] otherwise, whose text is ["[Errno n] reason: "] followed by
    [repr] of the path. *)
Definition os_remove (path : string) : M unit :=
  fun st =>
    match files st !! path with
    | Some RegularFile =>
        (Returns tt, mkState (delete path (files st)) (logs st) (tasks st))
    | Some ProtectedFile =>
        (Raises (PyExc PermissionError
                   ("[Errno 13] Permission denied: " +:+ repr path)), st)
    | Some Directory =>
        (Raises (PyExc IsADirectoryError
                   ("[Errno 21] Is a directory: " +:+ repr path)), st)
    | None =>
        (Raises (PyExc FileNotFoundError
                   ("[Errno 2] No such file or directory: " +:+ repr path)), st)
    end.

(** ** [cleanup_file] (server.py, lines 22-28) *)

Definition cleanup_file (path : string) : M unit :=
  try_except
    (b <- os_path_exists path ;;
     if b then
       os_remove path ;;
       logging INFO ("🧹 Archivo temporal eliminado: " +:+ path)
     else ret tt)
    [(OSError, fun e =>
        logging ERROR ("❌ Error al eliminar el archivo " +:+ path +:+ ": " +:+ str e))].

(** ** String and path helpers *)

(** [s.startswith(prefix)] *)
Definition startswith (s prefix : string) : bool := String.prefix prefix s.

(** [s.endswith(c)] for a one-character suffix *)
Fixpoint endswith_char (s : string) (c : ascii) : bool :=
  match s with
  | EmptyString => false
  | String a EmptyString => Ascii.eqb a c
  | String _ rest => endswith_char rest c
  end.

(** [s.replace(old, new)] for one-character [old] and [new]: every
    occurrence is replaced. *)
Fixpoint replace (s : string) (old new : ascii) : string :=
  match s with
  | EmptyString => EmptyString
  | String a rest =>
      String (if Ascii.eqb a old then new else a) (replace rest old new)
  end.

(** [os.path.join(a, b)] as [posixpath.join] computes it. *)
Definition os_path_join (a b : string) : string :=
  if startswith b "/" then b
  else if (String.length a =? 0)%nat || endswith_char a "/" then a +:+ b
  else a +:+ "/" +:+ b.

(** ** Data model *)

(** [DownloadRequest] (lines 36-38).  The fields hold what the handler
    reads: [str(request.url)] and [request.quality]. *)
Record DownloadRequest : Set := {
  url : string;
  quality : string
}.

(** The values of [Literal['mp3_320', 'mp3_192', 'm4a', 'flac']]. *)
Definition quality_literals : list string := ["mp3_320"; "mp3_192"; "m4a"; "flac"].

(** Input validation of the [quality] field, as the framework performs it
    before the handler runs. *)
Definition quality_is_valid (q : string) : bool :=
  bool_decide (q ∈ quality_literals).

Record postprocessor : Set := {
  key : string;
  preferredcodec : string;
  preferredquality : option string
}.

(** A value of [QUALITY_SETTINGS]: a dict with key ['ext'] and the optional
    keys ['format'] and ['postprocessors']. *)
Record setting : Set := {
  ext : string;
  setting_format : option string;
  setting_postprocessors : option (list postprocessor)
}.

(** [QUALITY_SETTINGS] (lines 49-54) *)
Definition QUALITY_SETTINGS : gmap string setting :=
  <["mp3_320" := {| ext := "mp3"; setting_format := None;
                    setting_postprocessors :=
                      Some [{| key := "FFmpegExtractAudio"; preferredcodec := "mp3";
                               preferredquality := Some "320" |}] |}]>
  (<["mp3_192" := {| ext := "mp3"; setting_format := None;
                     setting_postprocessors :=
                       Some [{| key := "FFmpegExtractAudio"; preferredcodec := "mp3";
                                preferredquality := Some "192" |}] |}]>
  (<["m4a" := {| ext := "m4a"; setting_format := Some "bestaudio[ext=m4a]/best";
                 setting_postprocessors := None |}]>
  (<["flac" := {| ext := "flac"; setting_format := None;
                  setting_postprocessors :=
                    Some [{| key := "FFmpegExtractAudio"; preferredcodec := "flac";
                             preferredquality := None |}] |}]>
   ∅))).

(** The options handed to the extraction library (lines 59-70). *)
Record ydl_opts : Type := {
  quiet : bool;
  no_warnings : bool;
  outtmpl : string;
  nocheckcertificate : bool;
  format : string;
  postprocessors : list postprocessor;
  extractor_args : gmap string (gmap string string)
}.

Definition build_ydl_opts (TEMP_DIR temp_id : string) (s : setting) : ydl_opts :=
  {| quiet := true;
     no_warnings := true;
     outtmpl := os_path_join TEMP_DIR (temp_id +:+ ".%(ext)s");
     nocheckcertificate := true;
     format := default "bestaudio/best" (setting_format s);
     postprocessors := default [] (setting_postprocessors s);
     extractor_args := {[ "youtube" := {[ "player_client" := "default" ]} ]} |}.

(** The values the metadata dict returned by the library may hold. *)
Inductive py_value : Set :=
| PyStr (s : string)
| PyNone
| PyInt (z : Z).

(** [FileResponse(path, filename=..., media_type=...)] *)
Record FileResponse : Set := {
  path : string;
  filename : string;
  media_type : string
}.

(** The constructor [FileResponse(path, filename=..., media_type=...)].
    It builds the Content-Disposition header from
    [urllib.parse.quote(filename)], which encodes the filename as UTF-8
    under strict error handling: a filename holding a surrogate raises
    [UnicodeEncodeError]. *)
Definition FileResponse_init (path filename media_type : string) : M FileResponse :=
  match utf8_encode_error filename with
  | Some e => raise e
  | None => ret {| path := path; filename := filename; media_type := media_type |}
  end.

(** The answers of the external collaborators during one request. *)
Record environment : Type := {
  (* [tempfile.gettempdir()], read once into [TEMP_DIR] *)
  gettempdir : string;
  (* [str(uuid.uuid4())] *)
  uuid4 : string;
  (* [YoutubeDL(opts).extract_info(url, download=True)]: the metadata dict
     (or Python's [None]), or the exception the library raises *)
  extract_info : ydl_opts -> string -> result (option (gmap string py_value));
  (* [os.listdir(dir)] once the extraction has returned, in the order the
     operating system reports the entries *)
  listdir : string -> result (list string)
}.

Definition TEMP_DIR (env : environment) : string := gettempdir env.

(** ** [do_download] (lines 74-94) *)

(** [info.get('title', 'audio').replace('/', '_')]: an [AttributeError]
    when [info] is [None] or the title is not a string. *)
Definition title_of (info : option (gmap string py_value)) : result string :=
  match info with
  | None => Raises (PyExc AttributeError "'NoneType' object has no attribute 'get'")
  | Some d =>
      match default (PyStr "audio") (d !! "title") with
      | PyStr s => Returns (replace s "/" "_")
      | PyNone => Raises (PyExc AttributeError "'NoneType' object has no attribute 'replace'")
      | PyInt _ => Raises (PyExc AttributeError "'int' object has no attribute 'replace'")
      end
  end.

(** The loop of lines 81-84: the first entry of the listing whose name
    starts with [temp_id]; [None] when the loop runs to its end. *)
Fixpoint first_match (temp_id : string) (entries : list string) : option string :=
  match entries with
  | [] => None
  | f :: rest => if startswith f temp_id then Some f else first_match temp_id rest
  end.

Definition do_download (env : environment) (request : DownloadRequest)
    (temp_id : string) (opts : ydl_opts) : M (string * string) :=
  try_except
    (info <- lift (extract_info env opts (url request)) ;;
     title <- lift (title_of info) ;;
     entries <- lift (listdir env (TEMP_DIR env)) ;;
     match first_match temp_id entries with
     | Some f =>
         let final_path := os_path_join (TEMP_DIR env) f in
         ret (final_path, title)
     | None =>
         raise (PyExc FileNotFoundError
                  "No se encontró el archivo procesado en el directorio temporal.")
     end)
    [(DownloadError, fun e =>
        logging WARNING ("Error de descarga de yt-dlp: " +:+ str e) ;;
        raise (PyExc ValueError
                 "No se pudo procesar la URL. Puede ser inválida o el video no está disponible."));
     (Exception, fun e =>
        logging ERROR ("Error inesperado en el hilo de descarga: " +:+ str e) ;;
        raise e)].

(** ** [download_music] (lines 43-112) *)

(** [background_tasks.add_task(cleanup_file, final_path)] *)
Definition add_task (final_path : string) : M unit :=
  fun st => (Returns tt, mkState (files st) (logs st) (tasks st ++ [final_path])).

Definition download_music (env : environment) (request : DownloadRequest) : M FileResponse :=
  logging INFO ("📥 Solicitud de descarga recibida: " +:+ url request
                +:+ " | Calidad: " +:+ quality request) ;;
  let temp_id := uuid4 env in
  match QUALITY_SETTINGS !! quality request with
  | None => raise (PyExc TypeError "'NoneType' object is not subscriptable")
  | Some setting =>
      let ext := ext setting in
      let opts := build_ydl_opts (TEMP_DIR env) temp_id setting in
      try_except
        (r <- do_download env request temp_id opts ;;
         let '(final_path, title) := r in
         add_task final_path ;;
         logging INFO ("✅ Enviando archivo: " +:+ title +:+ "." +:+ ext) ;;
         FileResponse_init final_path (title +:+ "." +:+ ext) "application/octet-stream")
        [(ValueError, fun e => raise (HTTPException 400 (str e)));
         (Exception, fun e =>
            logging ERROR ("❌ Error crítico en el endpoint /download: " +:+ str e) ;;
            raise (HTTPException 500 "Ocurrió un error interno en el servidor."))]
  end.

(** ** Predicates used in the statements *)

Definition is_hex_digit (c : ascii) : bool :=
  let n := nat_of_ascii c in
  ((48 <=? n) && (n <=? 57))%nat || ((97 <=? n) && (n <=? 102))%nat.

(** The canonical text of a UUID, as [str(uuid.uuid4())] prints it: 36
    characters, lower-case hexadecimal digits in groups of 8-4-4-4-12
    separated by ['-']. *)
Definition uuid_char_ok (i : nat) (c : ascii) : bool :=
  if bool_decide (i ∈ [8; 13; 18; 23]%nat) then Ascii.eqb c "-" else is_hex_digit c.

Definition is_uuid_str (s : string) : bool :=
  (String.length s =? 36)%nat
  && forallb (fun ic => uuid_char_ok ic.1 ic.2)
             (combine (seq 0 36) (String.list_ascii_of_string s)).

(** ** States and messages named in the statements *)

Definition log_record (l : level) (msg : string) (st : state) : state :=
  mkState (files st) (logs st ++ [(l, msg)]) (tasks st).

(** The record [cleanup_file] logs when the removal of [p] raised [e]. *)
Definition removal_error_record (p : string) (e : exn) : level * string :=
  (ERROR, "❌ Error al eliminar el archivo " +:+ p +:+ ": " +:+ str e).

(** The exception of line 86. *)
Definition not_found_error : exn :=
  PyExc FileNotFoundError "No se encontró el archivo procesado en el directorio temporal.".

(** The exception of line 90. *)
Definition invalid_url_error : exn :=
  PyExc ValueError
    "No se pudo procesar la URL. Puede ser inválida o el video no está disponible.".

(** The detail of line 112. *)
Definition internal_error_detail : string := "Ocurrió un error interno en el servidor.".

(** The record of line 44. *)
Definition received_record (request : DownloadRequest) : string :=
  "📥 Solicitud de descarga recibida: " +:+ url request
  +:+ " | Calidad: " +:+ quality request.

(** The call [asyncio.to_thread(do_download)] of line 98, for a request
    whose quality selects the profile [s]. *)
Definition thread_run (env : environment) (request : DownloadRequest) (s : setting)
    (st : state) : result (string * string) * state :=
  do_download env request (uuid4 env)
    (build_ydl_opts (TEMP_DIR env) (uuid4 env) s)
    (log_record INFO (received_record request) st).

(** The output format the specification expects of each quality selector
    (stated from the specification's words, to be compared with
    [QUALITY_SETTINGS]). *)
Definition expected_extension (q : string) : option string :=
  if String.eqb q "mp3_320" then Some "mp3"
  else if String.eqb q "mp3_192" then Some "mp3"
  else if String.eqb q "m4a" then Some "m4a"
  else if String.eqb q "flac" then Some "flac"
  else None.

(** The exception [e] is raised inside the [try] body of [do_download]:
    by the library (line 77), by the title derivation (line 78) or by the
    directory listing (line 81). *)
Definition raised_in_thread (env : environment) (request : DownloadRequest)
    (opts : ydl_opts) (e : exn) : Prop :=
  extract_info env opts (url request) = Raises e
  \/ (exists info, extract_info env opts (url request) = Returns info /\
        title_of info = Raises e)
  \/ (exists info t, extract_info env opts (url request) = Returns info /\
        title_of info = Returns t /\ listdir env (TEMP_DIR env) = Raises e).

(** ** Sample environments *)

Definition empty_state : state := mkState ∅ [] [].

Definition sample_id : string := "3f2b8c1e-5d4a-4e6f-9a7b-0c1d2e3f4a5b".
Definition other_id : string := "7a1c9e2d-0b3f-4c8a-b6d5-e4f3a2b1c0d9".

(** The library writes the file and returns metadata with the given title. *)
Definition env_ok (title : py_value) (entries : list string) : environment :=
  {| gettempdir := "/tmp";
     uuid4 := sample_id;
     extract_info := fun _ _ => Returns (Some {[ "title" := title ]});
     listdir := fun _ => Returns entries |}.

(** The library rejects the URL. *)
Definition env_bad_url : environment :=
  {| gettempdir := "/tmp";
     uuid4 := sample_id;
     extract_info := fun _ _ =>
       Raises (PyExc DownloadError "ERROR: [generic] Unable to download webpage");
     listdir := fun _ => Returns [] |}.


Definition stored_state : state :=
  mkState {[ "/tmp/a.mp3" := RegularFile ]} [] [].

(** The files of two requests side by side in the temp directory. *)
Definition two_files_state : state :=
  mkState {[ "/tmp/" +:+ sample_id +:+ ".mp3" := RegularFile;
             "/tmp/" +:+ other_id +:+ ".mp3" := RegularFile ]} [] [].

(** The library fails with a [ValueError] of its own. *)
Definition env_value_error : environment :=
  {| gettempdir := "/tmp";
     uuid4 := sample_id;
     extract_info := fun _ _ => Raises (PyExc ValueError "unknown url type: 'abc'");
     listdir := fun _ => Returns [] |}.


(** The extraction returns, and the temp directory cannot be listed. *)
Definition env_unlistable : environment :=
  {| gettempdir := "/tmp";
     uuid4 := sample_id;
     extract_info := fun _ _ => Returns (Some {[ "title" := PyStr "Song" ]});
     listdir := fun _ =>
       Raises (PyExc PermissionError "[Errno 13] Permission denied: '/tmp'") |}.

(** The metadata has no title. *)
Definition env_no_title (entries : list string) : environment :=
  {| gettempdir := "/tmp";
     uuid4 := sample_id;
     extract_info := fun _ _ => Returns (Some ∅);
     listdir := fun _ => Returns entries |}.

(** A title that ends in the lone surrogate U+DC80. *)
Definition surrogate_title : string :=
  "Song " +:+ String (ascii_of_nat 237) (String (ascii_of_nat 178)
                (String (ascii_of_nat 128) EmptyString)).

Definition req (q : string) : DownloadRequest :=
  {| url := "https://example.com/watch?v=abc"; quality := q |}.



(** * Properties *)

(** ** Two runs of the handler *)

Example download_m4a :
  (download_music (env_ok (PyStr "AC/DC - Live") ["other.tmp"; sample_id +:+ ".m4a"])
                  (req "m4a") empty_state).1
  = Returns {| path := "/tmp/" +:+ sample_id +:+ ".m4a";
               filename := "AC_DC - Live.m4a";
               media_type := "application/octet-stream" |}.
Proof. vm_compute. reflexivity. Qed.

Example download_bad_url :
  (download_music env_bad_url (req "flac") empty_state).1
  = Raises (HTTPException 400
      "No se pudo procesar la URL. Puede ser inválida o el video no está disponible.").
Proof. vm_compute. reflexivity. Qed.

(** ** The exception hierarchy *)

Lemma isinstance_refl c m : isinstance (PyExc c m) c = true.
Proof. by destruct c. Qed.

Lemma OSError_is_not_ValueError e :
  isinstance e OSError = true -> isinstance e ValueError = false.
Proof. destruct e as [c m|sc d]; [by destruct c | done]. Qed.

Lemma Exception_handler_misses e :
  isinstance e Exception = false ->
  class_of e = BaseException \/ class_of e = KeyboardInterrupt.
Proof. destruct e as [c m|sc d]; [destruct c; cbn; auto; discriminate | discriminate]. Qed.

(** ** Running the monad *)

Ltac run :=
  unfold bind, try_except, lift, ret, raise, logging, add_task,
    os_path_exists in *; cbn [dispatch fst snd] in *.

(** ** [cleanup_file] *)

Section Cleanup.

Variable p : string.
Variable st : state.

Lemma os_remove_raises e st' :
  os_remove p st = (Raises e, st') -> isinstance e OSError = true /\ st' = st.
Proof.
  unfold os_remove. destruct (files st !! p) as [[]|]; intros [= <- <-]; done.
Qed.

Lemma os_remove_returns st' :
  os_remove p st = (Returns tt, st') ->
  files st !! p = Some RegularFile /\
  st' = mkState (delete p (files st)) (logs st) (tasks st).
Proof.
  unfold os_remove. destruct (files st !! p) as [[]|]; intros [= <-]; done.
Qed.

Lemma cleanup_file_missing :
  files st !! p = None -> cleanup_file p st = (Returns tt, st).
Proof.
  intros Hnone. unfold cleanup_file. run. rewrite Hnone.
  rewrite bool_decide_eq_false_2; [done | by intros [? ?]].
Qed.

Lemma cleanup_file_regular :
  files st !! p = Some RegularFile ->
  cleanup_file p st =
    (Returns tt,
     mkState (delete p (files st))
             (logs st ++ [(INFO, "🧹 Archivo temporal eliminado: " +:+ p)])
             (tasks st)).
Proof.
  intros Hreg. unfold cleanup_file. run. rewrite Hreg.
  rewrite bool_decide_eq_true_2; [| by eexists].
  unfold os_remove. by rewrite Hreg.
Qed.

Lemma cleanup_file_failing e st' :
  is_Some (files st !! p) ->
  os_remove p st = (Raises e, st') ->
  cleanup_file p st =
    (Returns tt, mkState (files st) (logs st ++ [removal_error_record p e]) (tasks st)).
Proof.
  intros Hex Hrm. destruct (os_remove_raises _ _ Hrm) as [Hos ->].
  unfold cleanup_file. run.
  rewrite bool_decide_eq_true_2; [| done].
  rewrite Hrm. cbn -[isinstance]. by rewrite Hos.
Qed.

Lemma cleanup_file_returns : (cleanup_file p st).1 = Returns tt.
Proof.
  destruct (files st !! p) as [n|] eqn:Hp.
  - destruct (os_remove p st) as [[[]|e] st'] eqn:Hrm.
    + apply os_remove_returns in Hrm as [Hreg _].
      by rewrite (cleanup_file_regular Hreg).
    + by rewrite (cleanup_file_failing e st' (mk_is_Some _ _ Hp) Hrm).
  - by rewrite (cleanup_file_missing Hp).
Qed.

(** Only the path handed to the task can change. *)
Lemma cleanup_file_other q :
  q <> p -> files (cleanup_file p st).2 !! q = files st !! q.
Proof.
  intros Hne.
  destruct (files st !! p) as [n|] eqn:Hp.
  - destruct (os_remove p st) as [[[]|e] st'] eqn:Hrm.
    + apply os_remove_returns in Hrm as [Hreg _].
      rewrite (cleanup_file_regular Hreg). cbn. by rewrite lookup_delete_ne.
    + by rewrite (cleanup_file_failing e st' (mk_is_Some _ _ Hp) Hrm).
  - by rewrite (cleanup_file_missing Hp).
Qed.

End Cleanup.

(** ** Strings and paths *)

Lemma contains_char_app s t c :
  contains_char (s +:+ t) c = contains_char s c || contains_char t c.
Proof.
  induction s as [|a s IH]; simpl; [done |]. by rewrite IH, orb_assoc.
Qed.

Lemma replace_removes s old new :
  old <> new -> contains_char (replace s old new) old = false.
Proof.
  intros Hne. induction s as [|a s IH]; cbn; [done |].
  rewrite IH, orb_false_r.
  destruct (Ascii.eqb a old) eqn:Ha; [| done].
  apply Ascii.eqb_neq. congruence.
Qed.

Lemma replace_length s old new :
  String.length (replace s old new) = String.length s.
Proof. induction s as [|a s IH]; cbn; congruence. Qed.

(** Characters other than [old] are left as they are. *)
Lemma replace_keeps s old new c :
  c <> old -> c <> new -> contains_char (replace s old new) c = contains_char s c.
Proof.
  intros Ho Hn. induction s as [|a s IH]; cbn; [done |].
  rewrite IH. f_equal.
  destruct (Ascii.eqb a old) eqn:Ha; [| done].
  apply Ascii.eqb_eq in Ha as ->.
  apply Ascii.eqb_neq in Ho, Hn.
  by rewrite Ascii.eqb_sym, Hn, Ascii.eqb_sym, Ho.
Qed.

Lemma string_app_inv_head (t x y : string) : t +:+ x = t +:+ y -> x = y.
Proof. induction t as [|a t IH]; cbn; [done |]. intros [= H]. auto. Qed.

(** Two prefixes of one string that have the same length are equal. *)
Lemma prefixes_of_equal_length f : forall a b : string,
  String.length a = String.length b ->
  startswith f a = true -> startswith f b = true -> a = b.
Proof.
  unfold startswith.
  induction f as [|c f IH]; intros [|x a] [|y b]; cbn; try done.
  intros [= Hlen].
  destruct (ascii_dec x c) as [->|]; [| done].
  destruct (ascii_dec y c) as [->|]; [| done].
  intros Ha Hb. f_equal. by apply IH.
Qed.

Lemma startswith_first_char f a s c :
  startswith f (String a s) = true -> startswith f (String c EmptyString) = true -> c = a.
Proof.
  unfold startswith. destruct f as [|b f]; cbn; [done |].
  destruct (ascii_dec a b) as [->|]; [| done].
  destruct (ascii_dec c b) as [->|]; done.
Qed.

(** ** Identifiers *)

Lemma is_uuid_str_length s : is_uuid_str s = true -> String.length s = 36.
Proof.
  unfold is_uuid_str. intros [H _]%andb_prop. by apply Nat.eqb_eq.
Qed.

Lemma is_uuid_str_head s :
  is_uuid_str s = true -> exists c rest, s = String c rest /\ is_hex_digit c = true.
Proof.
  unfold is_uuid_str. intros [Hlen Hall]%andb_prop.
  destruct s as [|c rest]; [done |].
  exists c, rest. split; [done |].
  cbn in Hall. by apply andb_prop in Hall as [H _].
Qed.

(** A directory entry named after an identifier is a relative name. *)
Lemma uuid_prefixed_is_relative f id :
  is_uuid_str id = true -> startswith f id = true -> startswith f "/" = false.
Proof.
  intros (c & rest & -> & Hhex)%is_uuid_str_head Hf.
  destruct (startswith f "/") eqn:Hs; [| done].
  pose proof (startswith_first_char _ _ _ _ Hf Hs) as <-. done.
Qed.

Lemma os_path_join_relative_inj d f g :
  startswith f "/" = false -> startswith g "/" = false ->
  os_path_join d f = os_path_join d g -> f = g.
Proof.
  unfold os_path_join. intros -> ->.
  destruct ((String.length d =? 0)%nat || endswith_char d "/").
  - apply string_app_inv_head.
  - intros H%string_app_inv_head. by apply (string_app_inv_head "/").
Qed.

(** ** The directory scan *)

Lemma first_match_none id entries :
  Forall (fun f => startswith f id = false) entries -> first_match id entries = None.
Proof. induction 1 as [|f l Hf _ IH]; cbn; [done |]. by rewrite Hf. Qed.

Lemma first_match_first id pre f post :
  Forall (fun g => startswith g id = false) pre ->
  startswith f id = true ->
  first_match id (pre ++ f :: post)%list = Some f.
Proof.
  induction 1 as [|g l Hg _ IH]; cbn; intros Hf.
  - by rewrite Hf.
  - rewrite Hg. by apply IH.
Qed.

Lemma first_match_Some id entries f :
  first_match id entries = Some f ->
  exists pre post, entries = (pre ++ f :: post)%list /\
    Forall (fun g => startswith g id = false) pre /\ startswith f id = true.
Proof.
  induction entries as [|g l IH]; cbn; [done |].
  destruct (startswith g id) eqn:Hg.
  - intros [= ->]. by exists [], l.
  - intros (pre & post & -> & Hpre & Hf)%IH.
    exists (g :: pre), post. repeat split; [| done]. by constructor.
Qed.


(** ** [do_download] and [download_music] *)

Lemma utf8_encode_error_class t e :
  utf8_encode_error t = Some e -> exists m, e = PyExc UnicodeEncodeError m.
Proof.
  unfold utf8_encode_error. destruct (find_surrogate t 0) as [[pos suffix]|]; [| done].
  intros [= <-]. eauto.
Qed.

Section Download.

Variable env : environment.
Variable request : DownloadRequest.

Section Thread.

Variable temp_id : string.
Variable opts : ydl_opts.
Variable st : state.

Lemma do_download_download_error e :
  extract_info env opts (url request) = Raises e ->
  isinstance e DownloadError = true ->
  do_download env request temp_id opts st =
    (Raises invalid_url_error,
     log_record WARNING ("Error de descarga de yt-dlp: " +:+ str e) st).
Proof.
  intros Hex He. unfold do_download. run. rewrite Hex.
  cbn -[isinstance]. by rewrite He.
Qed.

Lemma do_download_found info t entries f :
  extract_info env opts (url request) = Returns info ->
  title_of info = Returns t ->
  listdir env (TEMP_DIR env) = Returns entries ->
  first_match temp_id entries = Some f ->
  do_download env request temp_id opts st =
    (Returns (os_path_join (TEMP_DIR env) f, t), st).
Proof.
  intros Hex Ht Hls Hf. unfold do_download. run.
  by rewrite Hex, Ht, Hls, Hf.
Qed.

Lemma do_download_not_found info t entries :
  extract_info env opts (url request) = Returns info ->
  title_of info = Returns t ->
  listdir env (TEMP_DIR env) = Returns entries ->
  first_match temp_id entries = None ->
  do_download env request temp_id opts st =
    (Raises not_found_error,
     log_record ERROR ("Error inesperado en el hilo de descarga: "
                       +:+ str not_found_error) st).
Proof.
  intros Hex Ht Hls Hf. unfold do_download. run.
  by rewrite Hex, Ht, Hls, Hf.
Qed.

(** A failing title derivation is an [AttributeError], which the
    thread logs and re-raises. *)
Lemma title_of_raises info e :
  title_of info = Raises e -> exists m, e = PyExc AttributeError m.
Proof.
  unfold title_of. destruct info as [d|]; [| intros [= <-]; eauto].
  destruct (default _ _); intros [= <-]; eauto.
Qed.

Lemma do_download_bad_title info e :
  extract_info env opts (url request) = Returns info ->
  title_of info = Raises e ->
  do_download env request temp_id opts st =
    (Raises e,
     log_record ERROR ("Error inesperado en el hilo de descarga: " +:+ str e) st).
Proof.
  intros Hex Ht. destruct (title_of_raises _ _ Ht) as [m ->].
  unfold do_download. run. by rewrite Hex, Ht.
Qed.

Lemma do_download_returns_inv final_path title st' :
  do_download env request temp_id opts st = (Returns (final_path, title), st') ->
  exists info entries f,
    extract_info env opts (url request) = Returns info /\
    title_of info = Returns title /\
    listdir env (TEMP_DIR env) = Returns entries /\
    first_match temp_id entries = Some f /\
    final_path = os_path_join (TEMP_DIR env) f /\
    st' = st.
Proof.
  unfold do_download. run.
  destruct (extract_info env opts (url request)) as [info|e] eqn:Hex.
  - destruct (title_of info) as [t|e] eqn:Ht.
    + destruct (listdir env (TEMP_DIR env)) as [entries|e] eqn:Hls.
      * destruct (first_match temp_id entries) as [f|] eqn:Hf.
        -- intros [= <- <- <-]. by exists info, entries, f.
        -- done.
      * unfold dispatch. destruct (isinstance e DownloadError); [done |].
        destruct (isinstance e Exception); done.
    + unfold dispatch. destruct (isinstance e DownloadError); [done |].
      destruct (isinstance e Exception); done.
  - unfold dispatch. destruct (isinstance e DownloadError); [done |].
    destruct (isinstance e Exception); done.
Qed.

End Thread.

Variable s : setting.
Hypothesis Hsetting : QUALITY_SETTINGS !! quality request = Some s.

Lemma download_music_success st final_path title st' :
  thread_run env request s st = (Returns (final_path, title), st') ->
  utf8_encode_error (title +:+ "." +:+ ext s) = None ->
  download_music env request st =
    (Returns {| path := final_path;
                filename := title +:+ "." +:+ ext s;
                media_type := "application/octet-stream" |},
     mkState (files st')
             (logs st' ++ [(INFO, "✅ Enviando archivo: " +:+ title +:+ "." +:+ ext s)])
             (tasks st' ++ [final_path])).
Proof.
  unfold thread_run, log_record, received_record, download_music, FileResponse_init.
  intros Hrun Henc. run. rewrite Hsetting. rewrite Hrun. cbn. by rewrite Henc.
Qed.

(** The constructor of the response fails: the exception is a
    [ValueError], raised inside the [try] once the cleanup is queued. *)
Lemma download_music_unencodable st final_path title st' e :
  thread_run env request s st = (Returns (final_path, title), st') ->
  utf8_encode_error (title +:+ "." +:+ ext s) = Some e ->
  download_music env request st =
    (Raises (HTTPException 400 (str e)),
     mkState (files st')
             (logs st' ++ [(INFO, "✅ Enviando archivo: " +:+ title +:+ "." +:+ ext s)])
             (tasks st' ++ [final_path])).
Proof.
  unfold thread_run, log_record, received_record, download_music, FileResponse_init.
  intros Hrun Henc. run. rewrite Hsetting. rewrite Hrun. cbn -[isinstance].
  rewrite Henc. cbn -[isinstance].
  destruct (utf8_encode_error_class _ _ Henc) as [m ->]. reflexivity.
Qed.

Lemma download_music_failure st e st' :
  thread_run env request s st = (Raises e, st') ->
  download_music env request st =
    if isinstance e ValueError then (Raises (HTTPException 400 (str e)), st')
    else if isinstance e Exception then
      (Raises (HTTPException 500 internal_error_detail),
       log_record ERROR ("❌ Error crítico en el endpoint /download: " +:+ str e) st')
    else (Raises e, st').
Proof.
  unfold thread_run, log_record, received_record, download_music.
  intros Hrun. run. rewrite Hsetting. rewrite Hrun. cbn -[isinstance].
  destruct (isinstance e ValueError); [done |].
  destruct (isinstance e Exception); done.
Qed.

End Download.

Lemma title_of_returns_inv info t :
  title_of info = Returns t ->
  exists d raw, info = Some d /\
    default (PyStr "audio") (d !! "title") = PyStr raw /\ t = replace raw "/" "_".
Proof.
  unfold title_of. destruct info as [d|]; [| done].
  destruct (default _ _) as [raw| |z] eqn:Hd; intros [= <-].
  by exists d, raw.
Qed.

Lemma download_music_returns_inv env request st r st' :
  download_music env request st = (Returns r, st') ->
  exists s final_path title st2,
    QUALITY_SETTINGS !! quality request = Some s /\
    thread_run env request s st = (Returns (final_path, title), st2) /\
    r = {| path := final_path;
           filename := title +:+ "." +:+ ext s;
           media_type := "application/octet-stream" |} /\
    tasks st' = (tasks st2 ++ [final_path])%list.
Proof.
  intros Hrun.
  destruct (QUALITY_SETTINGS !! quality request) as [s|] eqn:Hs.
  - destruct (thread_run env request s st) as [[[final_path title]|e] st2] eqn:Ht.
    + destruct (utf8_encode_error (title +:+ "." +:+ ext s)) as [e|] eqn:Henc.
      * by rewrite (download_music_unencodable _ _ _ Hs _ _ _ _ _ Ht Henc) in Hrun.
      * rewrite (download_music_success _ _ _ Hs _ _ _ _ Ht Henc) in Hrun.
        injection Hrun as <- <-. by exists s, final_path, title, st2.
    + rewrite (download_music_failure _ _ _ Hs _ _ _ Ht) in Hrun.
      destruct (isinstance e ValueError); [done |].
      destruct (isinstance e Exception); done.
  - unfold download_music in Hrun. run. by rewrite Hs in Hrun.
Qed.

(** A response that was built has a filename that encodes. *)
Lemma download_music_returns_encodable env request st r st' :
  download_music env request st = (Returns r, st') ->
  utf8_encode_error (filename r) = None.
Proof.
  intros Hrun.
  destruct (download_music_returns_inv _ _ _ _ _ Hrun)
    as (s & final_path & title & st2 & Hs & Ht & -> & _).
  destruct (utf8_encode_error (title +:+ "." +:+ ext s)) as [e|] eqn:Henc; [| done].
  by rewrite (download_music_unencodable _ _ _ Hs _ _ _ _ _ Ht Henc) in Hrun.
Qed.

(** With a profile found, no exception of the [Exception] family leaves
    the handler other than the two [HTTPException]s it builds. *)
Lemma download_music_raises_inv env request s st e st' :
  QUALITY_SETTINGS !! quality request = Some s ->
  download_music env request st = (Raises e, st') ->
  (exists d, e = HTTPException 400 d) \/
  e = HTTPException 500 internal_error_detail \/
  isinstance e Exception = false.
Proof.
  intros Hs Hrun.
  destruct (thread_run env request s st) as [[[final_path title]|e0] st2] eqn:Ht.
  - destruct (utf8_encode_error (title +:+ "." +:+ ext s)) as [e1|] eqn:Henc.
    + rewrite (download_music_unencodable _ _ _ Hs _ _ _ _ _ Ht Henc) in Hrun.
      injection Hrun as <- _. eauto.
    + by rewrite (download_music_success _ _ _ Hs _ _ _ _ Ht Henc) in Hrun.
  - rewrite (download_music_failure _ _ _ Hs _ _ _ Ht) in Hrun.
    destruct (isinstance e0 ValueError); [injection Hrun as <- _; eauto |].
    destruct (isinstance e0 Exception) eqn:He; injection Hrun as <- _; auto.
Qed.

Lemma quality_is_valid_cases q :
  quality_is_valid q = true ->
  q = "mp3_320" \/ q = "mp3_192" \/ q = "m4a" \/ q = "flac".
Proof.
  unfold quality_is_valid, quality_literals. intros H%bool_decide_eq_true.
  rewrite !elem_of_cons, elem_of_nil in H. tauto.
Qed.

(** * The claims *)

(** ** Failure classification *)

(** C1.  When the extraction library raises its download error while it
    processes the request's URL, [/download] fails with an [HTTPException]
    of status 400 whose detail is the fixed sentence of line 90: it is not
    empty, it does not depend on the library's message, and the failure is
    not the 500 of the internal-error clause. *)
Theorem download_error_is_client_error env request s st e :
  QUALITY_SETTINGS !! quality request = Some s ->
  extract_info env (build_ydl_opts (TEMP_DIR env) (uuid4 env) s) (url request) = Raises e ->
  isinstance e DownloadError = true ->
  (download_music env request st).1 =
    Raises (HTTPException 400
      "No se pudo procesar la URL. Puede ser inválida o el video no está disponible.")
  /\ (0 < String.length
            "No se pudo procesar la URL. Puede ser inválida o el video no está disponible.")%nat
  /\ (download_music env request st).1 <> Raises (HTTPException 500 internal_error_detail).
Proof.
  intros Hs Hex He.
  assert (Hrun : (download_music env request st).1 = Raises (HTTPException 400 (str invalid_url_error))).
  { erewrite download_music_failure; [| exact Hs |].
    2:{ unfold thread_run. by apply do_download_download_error. }
    done. }
  split; [exact Hrun |]. split; [cbn; lia |].
  rewrite Hrun. discriminate.
Qed.

Lemma download_error_is_client_error_witness :
  (download_music env_bad_url (req "flac") empty_state).1 =
    Raises (HTTPException 400
      "No se pudo procesar la URL. Puede ser inválida o el video no está disponible.")
  /\ (0 < String.length
            "No se pudo procesar la URL. Puede ser inválida o el video no está disponible.")%nat
  /\ (download_music env_bad_url (req "flac") empty_state).1
     <> Raises (HTTPException 500 internal_error_detail).
Proof.
  eapply (download_error_is_client_error env_bad_url (req "flac")).
  - vm_compute. reflexivity.
  - reflexivity.
  - reflexivity.
Defined.

(** C3.  When the extraction returns and no entry of the temp directory
    starts with the request's identifier, [/download] fails with the
    [HTTPException] of status 500.  The thread then raises the
    [FileNotFoundError] of line 86 (whenever the title could be derived),
    which the 400 clause does not catch; the 500 response differs from
    every 400 response. *)
Theorem missing_file_is_internal_error env request s st info entries :
  QUALITY_SETTINGS !! quality request = Some s ->
  extract_info env (build_ydl_opts (TEMP_DIR env) (uuid4 env) s) (url request)
    = Returns info ->
  listdir env (TEMP_DIR env) = Returns entries ->
  Forall (fun f => startswith f (uuid4 env) = false) entries ->
  (download_music env request st).1 = Raises (HTTPException 500 internal_error_detail)
  /\ (forall t, title_of info = Returns t ->
        (thread_run env request s st).1 = Raises not_found_error)
  /\ isinstance not_found_error ValueError = false
  /\ (forall detail,
        (download_music env request st).1 <> Raises (HTTPException 400 detail)).
Proof.
  intros Hs Hex Hls Hall.
  assert (Hrun : (download_music env request st).1
                 = Raises (HTTPException 500 internal_error_detail)).
  { destruct (title_of info) as [t|e] eqn:Ht.
    - erewrite download_music_failure; [| exact Hs |].
      2:{ unfold thread_run. eapply do_download_not_found; eauto using first_match_none. }
      done.
    - destruct (title_of_raises _ _ Ht) as [m ->].
      erewrite download_music_failure; [| exact Hs |].
      2:{ unfold thread_run. eapply do_download_bad_title; eauto. }
      done. }
  split; [exact Hrun |]. split; [| split; [done |]].
  - intros t Ht. unfold thread_run.
    erewrite do_download_not_found; eauto using first_match_none.
  - intros detail. rewrite Hrun. discriminate.
Qed.

Lemma missing_file_is_internal_error_witness :
  (download_music (env_ok (PyStr "Song") []) (req "mp3_320") empty_state).1
    = Raises (HTTPException 500 internal_error_detail)
  /\ (thread_run (env_ok (PyStr "Song") []) (req "mp3_320")
        {| ext := "mp3"; setting_format := None;
           setting_postprocessors :=
             Some [{| key := "FFmpegExtractAudio"; preferredcodec := "mp3";
                      preferredquality := Some "320" |}] |} empty_state).1
     = Raises not_found_error.
Proof.
  edestruct (missing_file_is_internal_error (env_ok (PyStr "Song") []) (req "mp3_320"))
    as (H500 & Hnf & _).
  - vm_compute. reflexivity.
  - reflexivity.
  - reflexivity.
  - constructor.
  - split; [exact H500 |]. apply (Hnf "Song"). reflexivity.
Defined.

(** ** Quality profiles and extraction options *)

(** C2.  Each of the four quality selectors has a profile in
    [QUALITY_SETTINGS] whose extension is the expected one (mp3, mp3, m4a,
    flac), and the options built from any profile, for any temp directory
    and identifier, disable the certificate check and carry the
    client-identification hint [youtube: player_client: default]. *)
Theorem profiles_and_options q :
  q ∈ quality_literals ->
  (exists s, QUALITY_SETTINGS !! q = Some s /\ Some (ext s) = expected_extension q)
  /\ forall dir temp_id s,
       nocheckcertificate (build_ydl_opts dir temp_id s) = true /\
       extractor_args (build_ydl_opts dir temp_id s) !! "youtube"
         = Some {[ "player_client" := "default" ]}.
Proof.
  intros Hq. split.
  - unfold quality_literals in Hq. rewrite !elem_of_cons, elem_of_nil in Hq.
    destruct Hq as [-> | [-> | [-> | [-> | []]]]];
      eexists; (split; [vm_compute; reflexivity | reflexivity]).
  - intros dir temp_id s. split; [reflexivity |]. cbn. apply lookup_singleton_eq.
Qed.

Lemma profiles_and_options_witness :
  (exists s, QUALITY_SETTINGS !! "flac" = Some s /\ Some (ext s) = expected_extension "flac")
  /\ forall dir temp_id s,
       nocheckcertificate (build_ydl_opts dir temp_id s) = true /\
       extractor_args (build_ydl_opts dir temp_id s) !! "youtube"
         = Some {[ "player_client" := "default" ]}.
Proof.
  apply (profiles_and_options "flac").
  unfold quality_literals. rewrite !elem_of_cons. auto.
Defined.

(** C7.  A quality selector accepted by input validation always has a
    profile in [QUALITY_SETTINGS]; for such a request the handler never
    takes the branch where the lookup yields nothing, so no [TypeError]
    leaves it. *)
Theorem validated_quality_has_profile q :
  quality_is_valid q = true ->
  (exists s, QUALITY_SETTINGS !! q = Some s)
  /\ forall env u st e,
       (download_music env {| url := u; quality := q |} st).1 = Raises e ->
       class_of e <> TypeError.
Proof.
  intros Hq.
  assert (Hs : exists s, QUALITY_SETTINGS !! q = Some s).
  { destruct (quality_is_valid_cases _ Hq) as [-> | [-> | [-> | ->]]];
      eexists; vm_compute; reflexivity. }
  split; [exact Hs |].
  destruct Hs as [s Hs]. intros env u st e Hrun.
  destruct (download_music env {| url := u; quality := q |} st) as [r st'] eqn:Hdm.
  cbn in Hrun. subst r.
  destruct (download_music_raises_inv env {| url := u; quality := q |} s st e st' Hs Hdm)
    as [[d ->] | [-> | He]];
    [done | done |].
  intros Hc. destruct e as [c m | sc d]; [| done]. cbn in Hc. by subst c.
Qed.

Lemma validated_quality_has_profile_witness :
  (exists s, QUALITY_SETTINGS !! "mp3_192" = Some s)
  /\ forall env u st e,
       (download_music env {| url := u; quality := "mp3_192" |} st).1 = Raises e ->
       class_of e <> TypeError.
Proof. apply (validated_quality_has_profile "mp3_192"). reflexivity. Defined.

(** Without validation the lookup can fail, and the [TypeError] of line 57
    leaves the handler: the precondition of C7 is needed. *)
Example unvalidated_quality_escapes :
  quality_is_valid "wav" = false /\
  (download_music (env_ok (PyStr "Song") []) (req "wav") empty_state).1
  = Raises (PyExc TypeError "'NoneType' object is not subscriptable").
Proof. split; vm_compute; reflexivity. Qed.

(** ** The response *)

(** C4.  In every successful [/download] call the response's filename is
    the stem returned by the download thread, a dot and the profile's
    extension, and that stem contains no ['/'], the path separator that
    line 78 replaces, whatever the title of the metadata was. *)
Theorem filename_stem_has_no_separator env request st r st' :
  download_music env request st = (Returns r, st') ->
  exists s final_path stem,
    QUALITY_SETTINGS !! quality request = Some s /\
    (thread_run env request s st).1 = Returns (final_path, stem) /\
    filename r = stem +:+ "." +:+ ext s /\
    contains_char stem "/" = false.
Proof.
  intros (s & final_path & title & st2 & Hs & Ht & -> & _)%download_music_returns_inv.
  exists s, final_path, title. rewrite Ht. repeat split; [done |].
  apply do_download_returns_inv in Ht as (info & entries & f & _ & Htitle & _).
  apply title_of_returns_inv in Htitle as (d & raw & _ & _ & ->).
  by apply replace_removes.
Qed.

Lemma filename_stem_has_no_separator_witness :
  exists s final_path stem,
    QUALITY_SETTINGS !! "m4a" = Some s /\
    (thread_run (env_ok (PyStr "AC/DC - Live/Wire") [sample_id +:+ ".m4a"])
                (req "m4a") s empty_state).1 = Returns (final_path, stem) /\
    "AC_DC - Live_Wire.m4a" = stem +:+ "." +:+ ext s /\
    contains_char stem "/" = false.
Proof.
  eapply (filename_stem_has_no_separator
            (env_ok (PyStr "AC/DC - Live/Wire") [sample_id +:+ ".m4a"])
            (req "m4a") empty_state
            {| path := "/tmp/" +:+ sample_id +:+ ".m4a";
               filename := "AC_DC - Live_Wire.m4a";
               media_type := "application/octet-stream" |}).
  vm_compute. reflexivity.
Defined.

(** C5.  In every successful [/download] call the response's filename is
    the sanitised title (the metadata's title, or ["audio"] when it has
    none, with each ['/'] replaced by ['_']), a dot and the extension of
    the selected profile, and its media type is
    [application/octet-stream]. *)
Theorem response_filename_and_media_type env request st r st' :
  download_music env request st = (Returns r, st') ->
  exists s d raw,
    QUALITY_SETTINGS !! quality request = Some s /\
    extract_info env (build_ydl_opts (TEMP_DIR env) (uuid4 env) s) (url request)
      = Returns (Some d) /\
    default (PyStr "audio") (d !! "title") = PyStr raw /\
    filename r = replace raw "/" "_" +:+ "." +:+ ext s /\
    media_type r = "application/octet-stream".
Proof.
  intros (s & final_path & title & st2 & Hs & Ht & -> & _)%download_music_returns_inv.
  apply do_download_returns_inv in Ht as (info & entries & f & Hex & Htitle & _).
  apply title_of_returns_inv in Htitle as (d & raw & -> & Hraw & ->).
  by exists s, d, raw.
Qed.

Lemma response_filename_and_media_type_witness :
  exists s d raw,
    QUALITY_SETTINGS !! "flac" = Some s /\
    extract_info (env_ok (PyStr "a/b") ["x"; sample_id +:+ ".flac"])
      (build_ydl_opts "/tmp" sample_id s) (url (req "flac")) = Returns (Some d) /\
    default (PyStr "audio") (d !! "title") = PyStr raw /\
    "a_b.flac" = replace raw "/" "_" +:+ "." +:+ ext s /\
    "application/octet-stream" = "application/octet-stream".
Proof.
  eapply (response_filename_and_media_type
            (env_ok (PyStr "a/b") ["x"; sample_id +:+ ".flac"])
            (req "flac") empty_state
            {| path := "/tmp/" +:+ sample_id +:+ ".flac";
               filename := "a_b.flac";
               media_type := "application/octet-stream" |}).
  vm_compute. reflexivity.
Defined.

(** ** File resolution *)




(** ** Deferred cleanup *)



(** C10.  On a path that does not exist [cleanup_file] removes nothing,
    logs nothing and returns; and for every path, running the task a
    second time returns normally and leaves the filesystem as the first
    run left it. *)
Theorem cleanup_file_idempotent p st :
  (files st !! p = None -> cleanup_file p st = (Returns tt, st))
  /\ (cleanup_file p (cleanup_file p st).2).1 = Returns tt
  /\ files (cleanup_file p (cleanup_file p st).2).2 = files (cleanup_file p st).2.
Proof.
  split; [apply cleanup_file_missing |]. split; [apply cleanup_file_returns |].
  destruct (files st !! p) as [n|] eqn:Hp.
  - destruct (os_remove p st) as [[[]|e] st'] eqn:Hrm.
    + apply os_remove_returns in Hrm as [Hreg _].
      rewrite (cleanup_file_regular _ _ Hreg). cbn.
      rewrite cleanup_file_missing; [done |]. cbn. apply lookup_delete_eq.
    + rewrite (cleanup_file_failing _ _ e st' (mk_is_Some _ _ Hp) Hrm). cbn [snd].
      set (st1 := mkState (files st) (logs st ++ [removal_error_record p e]) (tasks st)).
      assert (Hrm' : os_remove p st1 = (Raises e, st1)).
      { unfold os_remove in *. cbn. destruct (files st !! p) as [[]|]; by inversion Hrm. }
      by rewrite (cleanup_file_failing p st1 e st1 (mk_is_Some _ _ Hp) Hrm').
  - rewrite (cleanup_file_missing _ _ Hp). cbn [snd]. by rewrite (cleanup_file_missing _ _ Hp).
Qed.

Lemma cleanup_file_idempotent_witness :
  cleanup_file "/tmp/gone.mp3" stored_state = (Returns tt, stored_state).
Proof.
  apply (cleanup_file_idempotent "/tmp/gone.mp3" stored_state).
  vm_compute. reflexivity.
Defined.

Example cleanup_twice :
  files (cleanup_file "/tmp/a.mp3" stored_state).2 = ∅ /\
  files (cleanup_file "/tmp/a.mp3" (cleanup_file "/tmp/a.mp3" stored_state).2).2 = ∅.
Proof. split; vm_compute; reflexivity. Qed.

(** ** Independence of requests *)

Lemma startswith_app a b : startswith (a +:+ b) a = true.
Proof.
  unfold startswith. induction a as [|c a IH]; simpl; [by destruct b |].
  by destruct (ascii_dec c c).
Qed.

(** The statement the claim gives as its reason: of two distinct strings
    of the same length, at most one is a prefix of a given name. *)
Lemma equal_length_prefixes_exclude a b f :
  String.length a = String.length b -> a <> b ->
  startswith f a = true -> startswith f b = false.
Proof.
  intros Hlen Hne Ha. destruct (startswith f b) eqn:Hb; [| done].
  destruct Hne. by apply (prefixes_of_equal_length f).
Qed.

(** C9.  Two distinct generated identifiers have the same length, hence a
    name starting with one never starts with the other.  Consequently the
    output templates of the two requests differ, the file resolved for one
    request is never a file of the other, files of the two requests have
    different paths, and the cleanup of a file of one request leaves every
    file of the other as it was. *)
Theorem distinct_identifiers_do_not_interfere id1 id2 :
  is_uuid_str id1 = true ->
  is_uuid_str id2 = true ->
  id1 <> id2 ->
  String.length id1 = String.length id2
  /\ (forall f, startswith f id1 = true -> startswith f id2 = false)
  /\ (forall dir s1 s2,
        outtmpl (build_ydl_opts dir id1 s1) <> outtmpl (build_ydl_opts dir id2 s2))
  /\ (forall entries f,
        first_match id1 entries = Some f -> startswith f id2 = false)
  /\ (forall dir f1 f2 st,
        startswith f1 id1 = true -> startswith f2 id2 = true ->
        os_path_join dir f1 <> os_path_join dir f2 /\
        files (cleanup_file (os_path_join dir f1) st).2 !! os_path_join dir f2
          = files st !! os_path_join dir f2).
Proof.
  intros Hu1 Hu2 Hne.
  assert (Hlen : String.length id1 = String.length id2)
    by (by rewrite (is_uuid_str_length _ Hu1), (is_uuid_str_length _ Hu2)).
  assert (Hexcl : forall f, startswith f id1 = true -> startswith f id2 = false)
    by (intros f; by apply equal_length_prefixes_exclude).
  assert (Hpaths : forall dir f1 f2,
            startswith f1 id1 = true -> startswith f2 id2 = true ->
            os_path_join dir f1 <> os_path_join dir f2).
  { intros dir f1 f2 H1 H2 Heq.
    apply os_path_join_relative_inj in Heq;
      [| by apply (uuid_prefixed_is_relative f1 id1)
       | by apply (uuid_prefixed_is_relative f2 id2)].
    subst f2. by rewrite (Hexcl _ H1) in H2. }
  split; [exact Hlen |]. split; [exact Hexcl |]. split; [| split].
  - intros dir s1 s2. cbn. apply Hpaths; apply startswith_app.
  - intros entries f (pre & post & _ & _ & Hf)%first_match_Some. by apply Hexcl.
  - intros dir f1 f2 st H1 H2. split; [by apply Hpaths |].
    apply cleanup_file_other. intros Heq. by eapply Hpaths.
Qed.

Lemma distinct_identifiers_do_not_interfere_witness :
  String.length sample_id = String.length other_id
  /\ startswith (other_id +:+ ".mp3") sample_id = false
  /\ files (cleanup_file (os_path_join "/tmp" (sample_id +:+ ".mp3")) two_files_state).2
       !! os_path_join "/tmp" (other_id +:+ ".mp3") = Some RegularFile.
Proof.
  destruct (distinct_identifiers_do_not_interfere sample_id other_id)
    as (Hlen & Hexcl & _ & _ & Hclean).
  - vm_compute. reflexivity.
  - vm_compute. reflexivity.
  - discriminate.
  - split; [exact Hlen |]. split.
    + destruct (distinct_identifiers_do_not_interfere other_id sample_id)
        as (_ & Hexcl' & _).
      * vm_compute. reflexivity.
      * vm_compute. reflexivity.
      * discriminate.
      * apply Hexcl', startswith_app.
    + destruct (Hclean "/tmp" (sample_id +:+ ".mp3") (other_id +:+ ".mp3") two_files_state)
        as [_ ->]; [apply startswith_app | apply startswith_app |].
      vm_compute. reflexivity.
Defined.

Example cleanup_of_one_request :
  files (cleanup_file ("/tmp/" +:+ sample_id +:+ ".mp3") two_files_state).2
  = {[ "/tmp/" +:+ other_id +:+ ".mp3" := RegularFile ]}.
Proof. vm_compute. reflexivity. Qed.


(** * Further properties of the handler *)

(** ** What the download thread does to the state *)

(** How the two [except] clauses of [do_download] treat an exception [e]
    raised in the [try] body. *)
Lemma do_download_handles env request temp_id opts st e :
  raised_in_thread env request opts e ->
  do_download env request temp_id opts st =
    if isinstance e DownloadError then
      (Raises invalid_url_error,
       log_record WARNING ("Error de descarga de yt-dlp: " +:+ str e) st)
    else if isinstance e Exception then
      (Raises e,
       log_record ERROR ("Error inesperado en el hilo de descarga: " +:+ str e) st)
    else (Raises e, st).
Proof.
  intros Hraise. unfold do_download. run.
  destruct Hraise as [Hex | [(info & Hex & Ht) | (info & t & Hex & Ht & Hls)]].
  - rewrite Hex.
    destruct (isinstance e DownloadError); [done |].
    destruct (isinstance e Exception); done.
  - rewrite Hex, Ht.
    destruct (isinstance e DownloadError); [done |].
    destruct (isinstance e Exception); done.
  - rewrite Hex, Ht, Hls.
    destruct (isinstance e DownloadError); [done |].
    destruct (isinstance e Exception); done.
Qed.

(** The thread never touches the filesystem map or the task queue. *)
Lemma do_download_keeps env request temp_id opts st res st' :
  do_download env request temp_id opts st = (res, st') ->
  files st' = files st /\ tasks st' = tasks st.
Proof.
  unfold do_download. run.
  assert (Hd : forall e,
            (if isinstance e DownloadError
             then fun st0 : state =>
               (Raises (A := string * string) invalid_url_error,
                log_record WARNING ("Error de descarga de yt-dlp: " +:+ str e) st0)
             else if isinstance e Exception
             then fun st0 : state =>
               (Raises e,
                log_record ERROR ("Error inesperado en el hilo de descarga: " +:+ str e) st0)
             else fun st0 : state => (Raises e, st0)) st = (res, st') ->
            files st' = files st /\ tasks st' = tasks st).
  { intros e.
    destruct (isinstance e DownloadError); [by intros [= _ <-] |].
    destruct (isinstance e Exception); by intros [= _ <-]. }
  destruct (extract_info env opts (url request)) as [info|e]; [| apply Hd].
  destruct (title_of info) as [t|e]; [| apply Hd].
  destruct (listdir env (TEMP_DIR env)) as [entries|e]; [| apply Hd].
  destruct (first_match temp_id entries) as [f|]; [by intros [= _ <-] | apply Hd].
Qed.

Lemma replace_absent s old new :
  contains_char s old = false -> replace s old new = s.
Proof.
  induction s as [|a s IH]; cbn; [done |].
  intros [Ha Hs]%orb_false_elim. by rewrite Ha, IH.
Qed.

(** The four entries of [QUALITY_SETTINGS], and nothing else. *)
Lemma QUALITY_SETTINGS_inv q s :
  QUALITY_SETTINGS !! q = Some s ->
  (q = "mp3_320" \/ q = "mp3_192" \/ q = "m4a" \/ q = "flac")
  /\ QUALITY_SETTINGS !! q = Some s.
Proof.
  intros Hs. split; [| done]. revert Hs. unfold QUALITY_SETTINGS.
  rewrite !lookup_insert. repeat case_decide; subst; auto.
  by rewrite lookup_empty.
Qed.

Lemma ValueError_instance e :
  isinstance e ValueError = true ->
  isinstance e DownloadError = false /\ isinstance e Exception = true.
Proof. destruct e as [c m|sc d]; [by destruct c | done]. Qed.

(** ** Failures of the download thread *)

(** X1.  A [ValueError] raised inside the download thread (by the library
    or by the listing) is re-raised by the thread and caught by the 400
    clause of the handler: the response is a 400 whose detail is the
    exception's own message, and the thread has logged it as an ERROR. *)
Theorem thread_value_error_is_exposed env request s st e :
  QUALITY_SETTINGS !! quality request = Some s ->
  raised_in_thread env request (build_ydl_opts (TEMP_DIR env) (uuid4 env) s) e ->
  isinstance e ValueError = true ->
  download_music env request st =
    (Raises (HTTPException 400 (str e)),
     log_record ERROR ("Error inesperado en el hilo de descarga: " +:+ str e)
       (log_record INFO (received_record request) st)).
Proof.
  intros Hs Hraise Hv. destruct (ValueError_instance _ Hv) as [Hd He].
  erewrite download_music_failure; [| exact Hs |].
  2:{ unfold thread_run. erewrite do_download_handles; [| exact Hraise].
      rewrite Hd, He. reflexivity. }
  by rewrite Hv.
Qed.

Lemma thread_value_error_is_exposed_witness :
  (download_music env_value_error (req "m4a") empty_state).1 =
    Raises (HTTPException 400 "unknown url type: 'abc'").
Proof.
  erewrite (thread_value_error_is_exposed env_value_error (req "m4a") _ empty_state
              (PyExc ValueError "unknown url type: 'abc'")).
  - reflexivity.
  - vm_compute. reflexivity.
  - left. reflexivity.
  - reflexivity.
Defined.



(** X3.  An exception outside the [Exception] family (such as
    [KeyboardInterrupt]) raised inside the download thread passes through
    both [try] statements unchanged: no clause logs it and it is not
    turned into an HTTP error. *)
Theorem base_exception_passes_through env request s st e :
  QUALITY_SETTINGS !! quality request = Some s ->
  raised_in_thread env request (build_ydl_opts (TEMP_DIR env) (uuid4 env) s) e ->
  isinstance e Exception = false ->
  download_music env request st =
    (Raises e, log_record INFO (received_record request) st).
Proof.
  intros Hs Hraise He.
  assert (Hd : isinstance e DownloadError = false)
    by (destruct e as [c m|sc d]; [by destruct c | done]).
  assert (Hv : isinstance e ValueError = false)
    by (destruct e as [c m|sc d]; [by destruct c | done]).
  erewrite download_music_failure; [| exact Hs |].
  2:{ unfold thread_run. erewrite do_download_handles; [| exact Hraise].
      rewrite Hd, He. reflexivity. }
  by rewrite Hv, He.
Qed.

Lemma base_exception_passes_through_witness :
  (download_music
     {| gettempdir := "/tmp"; uuid4 := sample_id;
        extract_info := fun _ _ => Raises (PyExc KeyboardInterrupt "interrupted");
        listdir := fun _ => Returns [] |}
     (req "m4a") empty_state).1 = Raises (PyExc KeyboardInterrupt "interrupted").
Proof.
  erewrite (base_exception_passes_through _ (req "m4a") _ empty_state
              (PyExc KeyboardInterrupt "interrupted")).
  - reflexivity.
  - vm_compute. reflexivity.
  - left. reflexivity.
  - reflexivity.
Defined.

(** X4.  The download error of the library, raised at any point of the
    download thread, leaves exactly two records behind, the INFO record of
    the request and a WARNING carrying the library's message, and the 400
    response does not carry that message. *)
Theorem download_error_is_logged_as_warning env request s st e :
  QUALITY_SETTINGS !! quality request = Some s ->
  raised_in_thread env request (build_ydl_opts (TEMP_DIR env) (uuid4 env) s) e ->
  isinstance e DownloadError = true ->
  download_music env request st =
    (Raises (HTTPException 400 (str invalid_url_error)),
     log_record WARNING ("Error de descarga de yt-dlp: " +:+ str e)
       (log_record INFO (received_record request) st)).
Proof.
  intros Hs Hraise Hd.
  erewrite download_music_failure; [| exact Hs |].
  2:{ unfold thread_run. erewrite do_download_handles; [| exact Hraise].
      rewrite Hd. reflexivity. }
  done.
Qed.

Lemma download_error_is_logged_as_warning_witness :
  download_music env_bad_url (req "mp3_192") empty_state =
    (Raises (HTTPException 400
       "No se pudo procesar la URL. Puede ser inválida o el video no está disponible."),
     mkState ∅
       [(INFO, "📥 Solicitud de descarga recibida: https://example.com/watch?v=abc | Calidad: mp3_192");
        (WARNING, "Error de descarga de yt-dlp: ERROR: [generic] Unable to download webpage")]
       []).
Proof.
  erewrite (download_error_is_logged_as_warning env_bad_url (req "mp3_192") _ empty_state
              (PyExc DownloadError "ERROR: [generic] Unable to download webpage")).
  - reflexivity.
  - vm_compute. reflexivity.
  - left. reflexivity.
  - reflexivity.
Defined.



(** ** Scheduling of the cleanup *)

(** X6.  The handler queues a cleanup as soon as the download thread has
    returned a path, and never otherwise.  On success one task is
    appended, for the path it serves.  On a failure the task queue is
    left as it was, except when the failure is the constructor of the
    response rejecting the filename: then the answer is a 400 and the
    cleanup of the resolved path is already queued. *)
Theorem cleanup_is_queued_once_resolved env request st res st' :
  download_music env request st = (res, st') ->
  match res with
  | Returns r => tasks st' = (tasks st ++ [path r])%list
  | Raises e =>
      tasks st' = tasks st
      \/ exists s final_path title e0,
           QUALITY_SETTINGS !! quality request = Some s /\
           (thread_run env request s st).1 = Returns (final_path, title) /\
           utf8_encode_error (title +:+ "." +:+ ext s) = Some e0 /\
           e = HTTPException 400 (str e0) /\
           tasks st' = (tasks st ++ [final_path])%list
  end.
Proof.
  intros Hrun.
  destruct (QUALITY_SETTINGS !! quality request) as [s|] eqn:Hs.
  - destruct (thread_run env request s st) as [[[final_path title]|e] st2] eqn:Ht.
    + assert (Htasks : tasks st2 = tasks st).
      { unfold thread_run in Ht. by apply do_download_keeps in Ht as [_ ->]. }
      destruct (utf8_encode_error (title +:+ "." +:+ ext s)) as [e0|] eqn:Henc.
      * rewrite (download_music_unencodable _ _ _ Hs _ _ _ _ _ Ht Henc) in Hrun.
        injection Hrun as <- <-. right. exists s, final_path, title, e0.
        rewrite Ht. cbn. by rewrite Htasks.
      * rewrite (download_music_success _ _ _ Hs _ _ _ _ Ht Henc) in Hrun.
        injection Hrun as <- <-. cbn. by rewrite Htasks.
    + rewrite (download_music_failure _ _ _ Hs _ _ _ Ht) in Hrun.
      unfold thread_run in Ht. apply do_download_keeps in Ht as [_ Htasks].
      destruct (isinstance e ValueError); [injection Hrun as <- <-; by left |].
      destruct (isinstance e Exception); injection Hrun as <- <-; by left.
  - unfold download_music in Hrun. run. rewrite Hs in Hrun.
    injection Hrun as <- <-. by left.
Qed.

Lemma cleanup_is_queued_once_resolved_witness :
  tasks (download_music (env_ok (PyStr "Song") [sample_id +:+ ".flac"]) (req "flac")
           (mkState ∅ [] ["/tmp/earlier.mp3"])).2
  = ["/tmp/earlier.mp3"; "/tmp/" +:+ sample_id +:+ ".flac"].
Proof.
  apply (cleanup_is_queued_once_resolved
           (env_ok (PyStr "Song") [sample_id +:+ ".flac"]) (req "flac")
           (mkState ∅ [] ["/tmp/earlier.mp3"])
           (Returns {| path := "/tmp/" +:+ sample_id +:+ ".flac";
                       filename := "Song.flac";
                       media_type := "application/octet-stream" |})).
  vm_compute. reflexivity.
Defined.

(** ** The title *)

(** X7.  When the library returns [None], or metadata whose title is
    present and not a string, line 78 raises and the handler answers 500
    whatever the temp directory holds: also when the file was produced.
    No cleanup is queued for it. *)
Theorem unusable_title_is_internal_error env request s st info :
  QUALITY_SETTINGS !! quality request = Some s ->
  extract_info env (build_ydl_opts (TEMP_DIR env) (uuid4 env) s) (url request)
    = Returns info ->
  (info = None \/
   exists d v, info = Some d /\ d !! "title" = Some v /\ forall t, v <> PyStr t) ->
  (download_music env request st).1 = Raises (HTTPException 500 internal_error_detail)
  /\ tasks (download_music env request st).2 = tasks st.
Proof.
  intros Hs Hex Hinfo.
  assert (Ht : exists m, title_of info = Raises (PyExc AttributeError m)).
  { destruct Hinfo as [-> | (d & v & -> & Hv & Hns)]; cbn; [eauto |].
    rewrite Hv. cbn. destruct v as [t| |z]; [by destruct (Hns t) | eauto | eauto]. }
  destruct Ht as [m Ht].
  erewrite download_music_failure; [| exact Hs |].
  2:{ unfold thread_run. erewrite do_download_handles; [| right; left; eauto].
      reflexivity. }
  done.
Qed.

Lemma unusable_title_is_internal_error_witness :
  (download_music (env_ok PyNone [sample_id +:+ ".mp3"]) (req "mp3_320") empty_state).1
    = Raises (HTTPException 500 internal_error_detail)
  /\ tasks (download_music (env_ok PyNone [sample_id +:+ ".mp3"]) (req "mp3_320")
              empty_state).2 = [].
Proof.
  eapply (unusable_title_is_internal_error
            (env_ok PyNone [sample_id +:+ ".mp3"]) (req "mp3_320")).
  - vm_compute. reflexivity.
  - reflexivity.
  - right. exists {[ "title" := PyNone ]}, PyNone.
    split; [reflexivity |]. split; [vm_compute; reflexivity | discriminate].
Defined.

(** X8.  When the metadata has no title key, the stem of the served
    filename is the default [audio]. *)
Theorem missing_title_defaults_to_audio env request s st d entries f :
  QUALITY_SETTINGS !! quality request = Some s ->
  extract_info env (build_ydl_opts (TEMP_DIR env) (uuid4 env) s) (url request)
    = Returns (Some d) ->
  d !! "title" = None ->
  listdir env (TEMP_DIR env) = Returns entries ->
  first_match (uuid4 env) entries = Some f ->
  (download_music env request st).1 =
    Returns {| path := os_path_join (TEMP_DIR env) f;
               filename := "audio." +:+ ext s;
               media_type := "application/octet-stream" |}.
Proof.
  intros Hs Hex Hd Hls Hf.
  erewrite download_music_success; [| exact Hs | |].
  2:{ unfold thread_run. eapply do_download_found; eauto.
      unfold title_of. rewrite Hd. reflexivity. }
  - done.
  - cbn. destruct (QUALITY_SETTINGS_inv _ _ Hs) as [[Hq | [Hq | [Hq | Hq]]] Hs'];
      rewrite Hq in Hs'; vm_compute in Hs'; injection Hs' as <-; vm_compute; reflexivity.
Qed.

Lemma missing_title_defaults_to_audio_witness :
  (download_music (env_no_title [sample_id +:+ ".m4a"]) (req "m4a") empty_state).1 =
    Returns {| path := "/tmp/" +:+ sample_id +:+ ".m4a";
               filename := "audio.m4a";
               media_type := "application/octet-stream" |}.
Proof.
  eapply eq_trans.
  - eapply (missing_title_defaults_to_audio
              (env_no_title [sample_id +:+ ".m4a"]) (req "m4a") _ empty_state ∅
              [sample_id +:+ ".m4a"] (sample_id +:+ ".m4a")).
    + vm_compute. reflexivity.
    + reflexivity.
    + reflexivity.
    + reflexivity.
    + vm_compute. reflexivity.
  - vm_compute. reflexivity.
Defined.

(** X9.  A title without ['/'] is served as it is, provided the filename
    encodes as UTF-8: the sanitisation changes nothing else, so the
    filename is the title, a dot and the extension. *)
Theorem clean_title_is_kept env request s st d raw entries f :
  QUALITY_SETTINGS !! quality request = Some s ->
  extract_info env (build_ydl_opts (TEMP_DIR env) (uuid4 env) s) (url request)
    = Returns (Some d) ->
  d !! "title" = Some (PyStr raw) ->
  contains_char raw "/" = false ->
  utf8_encode_error (raw +:+ "." +:+ ext s) = None ->
  listdir env (TEMP_DIR env) = Returns entries ->
  first_match (uuid4 env) entries = Some f ->
  (download_music env request st).1 =
    Returns {| path := os_path_join (TEMP_DIR env) f;
               filename := raw +:+ "." +:+ ext s;
               media_type := "application/octet-stream" |}.
Proof.
  intros Hs Hex Hd Hclean Henc Hls Hf.
  erewrite download_music_success; [| exact Hs | | exact Henc].
  2:{ unfold thread_run. eapply do_download_found; eauto.
      unfold title_of. rewrite Hd. cbn. by rewrite (replace_absent _ _ _ Hclean). }
  done.
Qed.

Lemma clean_title_is_kept_witness :
  (download_music (env_ok (PyStr "Intro\Outro: a.b") [sample_id +:+ ".mp3"])
     (req "mp3_192") empty_state).1 =
    Returns {| path := "/tmp/" +:+ sample_id +:+ ".mp3";
               filename := "Intro\Outro: a.b.mp3";
               media_type := "application/octet-stream" |}.
Proof.
  eapply eq_trans.
  - eapply (clean_title_is_kept
              (env_ok (PyStr "Intro\Outro: a.b") [sample_id +:+ ".mp3"])
              (req "mp3_192") _ empty_state {[ "title" := PyStr "Intro\Outro: a.b" ]}
              "Intro\Outro: a.b" [sample_id +:+ ".mp3"] (sample_id +:+ ".mp3")).
    + vm_compute. reflexivity.
    + reflexivity.
    + vm_compute. reflexivity.
    + vm_compute. reflexivity.
    + vm_compute. reflexivity.
    + reflexivity.
    + vm_compute. reflexivity.
  - vm_compute. reflexivity.
Defined.

(** ** The served file *)

(** X10.  With an identifier printed by [uuid4], the path of every
    successful response is an entry of the temp directory's listing whose
    name starts with the identifier, joined to [TEMP_DIR]: the served file
    lies inside the temp directory. *)
Theorem served_path_is_inside_temp_dir env request st r st' :
  is_uuid_str (uuid4 env) = true ->
  download_music env request st = (Returns r, st') ->
  exists entries f,
    listdir env (TEMP_DIR env) = Returns entries /\
    f ∈ entries /\
    startswith f (uuid4 env) = true /\
    path r = os_path_join (TEMP_DIR env) f /\
    startswith (path r) (TEMP_DIR env) = true.
Proof.
  intros Hid (s & final_path & title & st2 & Hs & Ht & -> & _)%download_music_returns_inv.
  apply do_download_returns_inv in Ht as (info & entries & f & _ & _ & Hls & Hf & -> & _).
  destruct (first_match_Some _ _ _ Hf) as (pre & post & -> & _ & Hstart).
  exists (pre ++ f :: post)%list, f. repeat split; [done | | done | ].
  - apply elem_of_app. right. apply elem_of_cons. by left.
  - cbn. unfold os_path_join.
    rewrite (uuid_prefixed_is_relative _ _ Hid Hstart).
    destruct (_ || _); apply startswith_app.
Qed.

Lemma served_path_is_inside_temp_dir_witness :
  exists entries f,
    listdir (env_ok (PyStr "Song") ["a.txt"; sample_id +:+ ".mp3"]) "/tmp" = Returns entries /\
    f ∈ entries /\
    startswith f sample_id = true /\
    "/tmp/" +:+ sample_id +:+ ".mp3" = os_path_join "/tmp" f /\
    startswith ("/tmp/" +:+ sample_id +:+ ".mp3") "/tmp" = true.
Proof.
  eapply (served_path_is_inside_temp_dir
            (env_ok (PyStr "Song") ["a.txt"; sample_id +:+ ".mp3"]) (req "mp3_320")
            empty_state
            {| path := "/tmp/" +:+ sample_id +:+ ".mp3";
               filename := "Song.mp3";
               media_type := "application/octet-stream" |}).
  - vm_compute. reflexivity.
  - vm_compute. reflexivity.
Defined.

(** X11.  Files of other requests in the temp directory do not disturb
    the resolution: when line 78 derives a title, the filename encodes as
    UTF-8 and the entries listed before the request's own file all start
    with other identifiers, the request is served its own file. *)
Theorem own_file_is_served_among_others env request s st info title pre e post :
  QUALITY_SETTINGS !! quality request = Some s ->
  is_uuid_str (uuid4 env) = true ->
  extract_info env (build_ydl_opts (TEMP_DIR env) (uuid4 env) s) (url request)
    = Returns info ->
  title_of info = Returns title ->
  utf8_encode_error (title +:+ "." +:+ ext s) = None ->
  listdir env (TEMP_DIR env) = Returns (pre ++ (uuid4 env +:+ "." +:+ e) :: post)%list ->
  Forall (fun g => exists id', is_uuid_str id' = true /\ id' <> uuid4 env /\
                     startswith g id' = true) pre ->
  (download_music env request st).1 =
    Returns {| path := os_path_join (TEMP_DIR env) (uuid4 env +:+ "." +:+ e);
               filename := title +:+ "." +:+ ext s;
               media_type := "application/octet-stream" |}.
Proof.
  intros Hs Hid Hex Ht Henc Hls Hpre.
  assert (Hnone : Forall (fun g => startswith g (uuid4 env) = false) pre).
  { eapply Forall_impl; [exact Hpre |]. cbn.
    intros g (id' & Hid' & Hne & Hg).
    apply (equal_length_prefixes_exclude id' (uuid4 env) g); [| done | done].
    by rewrite (is_uuid_str_length _ Hid), (is_uuid_str_length _ Hid'). }
  erewrite download_music_success; [done | exact Hs | | exact Henc].
  unfold thread_run. eapply do_download_found; eauto.
  apply first_match_first; [done | apply startswith_app].
Qed.

Lemma own_file_is_served_among_others_witness :
  (download_music
     (env_ok (PyStr "Song") [other_id +:+ ".mp3"; sample_id +:+ ".mp3"])
     (req "mp3_320") empty_state).1 =
    Returns {| path := "/tmp/" +:+ sample_id +:+ ".mp3";
               filename := "Song.mp3";
               media_type := "application/octet-stream" |}.
Proof.
  eapply eq_trans.
  - eapply (own_file_is_served_among_others
              (env_ok (PyStr "Song") [other_id +:+ ".mp3"; sample_id +:+ ".mp3"])
              (req "mp3_320") _ empty_state _ "Song" [other_id +:+ ".mp3"] "mp3" []).
    + vm_compute. reflexivity.
    + vm_compute. reflexivity.
    + reflexivity.
    + reflexivity.
    + vm_compute. reflexivity.
    + reflexivity.
    + constructor; [| constructor]. exists other_id.
      split; [vm_compute; reflexivity |]. split; [discriminate | apply startswith_app].
  - vm_compute. reflexivity.
Defined.

(** X12.  The whole filename of a successful response, stem, dot and
    extension, contains no ['/']. *)
Theorem filename_has_no_separator env request st r st' :
  download_music env request st = (Returns r, st') ->
  contains_char (filename r) "/" = false.
Proof.
  intros (s & final_path & title & st2 & Hs & Ht & -> & _)%download_music_returns_inv.
  apply do_download_returns_inv in Ht as (info & entries & f & _ & Htitle & _).
  apply title_of_returns_inv in Htitle as (d & raw & _ & _ & ->).
  cbn. rewrite !contains_char_app, replace_removes by done.
  destruct (QUALITY_SETTINGS_inv _ _ Hs) as [[-> | [-> | [-> | ->]]] Hs'];
    vm_compute in Hs'; injection Hs' as <-; reflexivity.
Qed.

Lemma filename_has_no_separator_witness :
  contains_char "a_b_c.flac" "/" = false.
Proof.
  apply (filename_has_no_separator
           (env_ok (PyStr "a/b/c") [sample_id +:+ ".flac"]) (req "flac") empty_state
           {| path := "/tmp/" +:+ sample_id +:+ ".flac";
              filename := "a_b_c.flac";
              media_type := "application/octet-stream" |}
           (mkState ∅
              [(INFO, "📥 Solicitud de descarga recibida: https://example.com/watch?v=abc | Calidad: flac");
               (INFO, "✅ Enviando archivo: a_b_c.flac")]
              ["/tmp/" +:+ sample_id +:+ ".flac"])).
  vm_compute. reflexivity.
Defined.

(** ** The profile table *)

(** X13.  The keys of [QUALITY_SETTINGS] are exactly the values that input
    validation accepts: a selector has a profile if and only if it is one
    of the four literals. *)
Theorem profile_iff_valid q :
  is_Some (QUALITY_SETTINGS !! q) <-> quality_is_valid q = true.
Proof.
  split.
  - intros [s Hs]. destruct (QUALITY_SETTINGS_inv _ _ Hs) as [Hq _].
    unfold quality_is_valid, quality_literals. apply bool_decide_eq_true.
    rewrite !elem_of_cons. tauto.
  - intros Hq. destruct (quality_is_valid_cases _ Hq) as [-> | [-> | [-> | ->]]];
      eexists; vm_compute; reflexivity.
Qed.

(** X14.  For a selector that validation would reject, the handler raises
    the [TypeError] of line 57 right after logging the request: the
    library is not called, nothing is queued, and the answer does not
    depend on the environment. *)
Theorem rejected_quality_raises_TypeError env u q st :
  quality_is_valid q = false ->
  download_music env {| url := u; quality := q |} st =
    (Raises (PyExc TypeError "'NoneType' object is not subscriptable"),
     log_record INFO (received_record {| url := u; quality := q |}) st).
Proof.
  intros Hq.
  assert (Hnone : QUALITY_SETTINGS !! q = None).
  { destruct (QUALITY_SETTINGS !! q) as [s|] eqn:Hs; [| done].
    destruct (QUALITY_SETTINGS_inv _ _ Hs) as [[-> | [-> | [-> | ->]]] _];
      vm_compute in Hq; discriminate. }
  unfold download_music. run. cbn [quality]. by rewrite Hnone.
Qed.

Lemma rejected_quality_raises_TypeError_witness :
  (download_music env_bad_url {| url := "https://example.com/a"; quality := "MP3_320" |}
     empty_state).1
  = Raises (PyExc TypeError "'NoneType' object is not subscriptable").
Proof.
  rewrite (rejected_quality_raises_TypeError env_bad_url "https://example.com/a" "MP3_320"
             empty_state).
  - reflexivity.
  - vm_compute. reflexivity.
Defined.

(** X15.  In the options built from any profile of the table, every
    post-processor is an audio extraction whose codec is the profile's
    extension; a profile without post-processor selects its extension
    through the format expression, and a profile with one uses the
    default format [bestaudio/best]. *)
Theorem profile_codec_matches_extension q s dir temp_id :
  QUALITY_SETTINGS !! q = Some s ->
  Forall (fun pp => key pp = "FFmpegExtractAudio" /\ preferredcodec pp = ext s)
         (postprocessors (build_ydl_opts dir temp_id s))
  /\ (postprocessors (build_ydl_opts dir temp_id s) = [] ->
      format (build_ydl_opts dir temp_id s) = "bestaudio[ext=" +:+ ext s +:+ "]/best")
  /\ (postprocessors (build_ydl_opts dir temp_id s) <> [] ->
      format (build_ydl_opts dir temp_id s) = "bestaudio/best").
Proof.
  intros Hs.
  destruct (QUALITY_SETTINGS_inv _ _ Hs) as [[-> | [-> | [-> | ->]]] Hs'];
    vm_compute in Hs'; injection Hs' as <-; cbn;
    (split; [repeat constructor | split; [done | done]]).
Qed.

Lemma profile_codec_matches_extension_witness :
  postprocessors
    (build_ydl_opts "/tmp" sample_id
       {| ext := "m4a"; setting_format := Some "bestaudio[ext=m4a]/best";
          setting_postprocessors := None |}) = [] /\
  format
    (build_ydl_opts "/tmp" sample_id
       {| ext := "m4a"; setting_format := Some "bestaudio[ext=m4a]/best";
          setting_postprocessors := None |}) = "bestaudio[ext=m4a]/best".
Proof.
  split; [reflexivity |].
  destruct (profile_codec_matches_extension "m4a"
              {| ext := "m4a"; setting_format := Some "bestaudio[ext=m4a]/best";
                 setting_postprocessors := None |} "/tmp" sample_id)
    as (_ & Hformat & _).
  - vm_compute. reflexivity.
  - apply Hformat. reflexivity.
Defined.

(** ** The effect of the cleanup *)

Lemma cleanup_file_files p st :
  files (cleanup_file p st).2 =
    match files st !! p with
    | Some RegularFile => delete p (files st)
    | _ => files st
    end.
Proof.
  destruct (files st !! p) as [n|] eqn:Hp.
  - destruct (os_remove p st) as [[[]|e] st'] eqn:Hrm.
    + apply os_remove_returns in Hrm as [Hreg _].
      rewrite (cleanup_file_regular _ _ Hreg). cbn.
      by assert (n = RegularFile) as -> by congruence.
    + rewrite (cleanup_file_failing _ _ e st' (mk_is_Some _ _ Hp) Hrm). cbn.
      destruct n; [| done | done].
      unfold os_remove in Hrm. by rewrite Hp in Hrm.
  - by rewrite (cleanup_file_missing _ _ Hp).
Qed.

(** X16.  What [cleanup_file] does to the process state: a regular file at
    the path is removed and nothing else changes in the filesystem; a
    missing path, a protected file and a directory leave the filesystem
    as it was.  The task queue is untouched, and exactly one record is
    logged when the path exists, none when it does not. *)
Theorem cleanup_file_effect p st :
  files (cleanup_file p st).2 =
    match files st !! p with
    | Some RegularFile => delete p (files st)
    | _ => files st
    end
  /\ tasks (cleanup_file p st).2 = tasks st
  /\ length (logs (cleanup_file p st).2) =
       (length (logs st) + match files st !! p with Some _ => 1 | None => 0 end)%nat.
Proof.
  split; [apply cleanup_file_files |].
  destruct (files st !! p) as [n|] eqn:Hp.
  - destruct (os_remove p st) as [[[]|e] st'] eqn:Hrm.
    + apply os_remove_returns in Hrm as [Hreg _].
      rewrite (cleanup_file_regular _ _ Hreg). cbn. by rewrite length_app.
    + rewrite (cleanup_file_failing _ _ e st' (mk_is_Some _ _ Hp) Hrm). cbn.
      by rewrite length_app.
  - rewrite (cleanup_file_missing _ _ Hp). cbn. split; [done | lia].
Qed.

(** X17.  Cleanups commute: running the task for two paths in either
    order leaves the same filesystem, so the order in which the deferred
    tasks of different requests run does not matter. *)
Theorem cleanup_file_commutes p q st :
  files (cleanup_file q (cleanup_file p st).2).2
  = files (cleanup_file p (cleanup_file q st).2).2.
Proof.
  rewrite !cleanup_file_files.
  destruct (decide (p = q)) as [-> | Hne]; [done |].
  destruct (files st !! p) as [[]|] eqn:Hp; destruct (files st !! q) as [[]|] eqn:Hq;
    rewrite ?lookup_delete_ne by done; rewrite ?Hp, ?Hq; try done.
  apply delete_delete.
Qed.

(** ** The temp directory *)

(** X18.  When the extraction has returned a usable title and the temp
    directory cannot be listed, the [OSError] of [os.listdir] is answered
    with the 500 of the internal-error clause, and no cleanup is
    queued. *)
Theorem unlistable_temp_dir_is_internal_error env request s st info title e :
  QUALITY_SETTINGS !! quality request = Some s ->
  extract_info env (build_ydl_opts (TEMP_DIR env) (uuid4 env) s) (url request)
    = Returns info ->
  title_of info = Returns title ->
  listdir env (TEMP_DIR env) = Raises e ->
  isinstance e OSError = true ->
  (download_music env request st).1 = Raises (HTTPException 500 internal_error_detail)
  /\ tasks (download_music env request st).2 = tasks st.
Proof.
  intros Hs Hex Ht Hls He.
  assert (Hc : isinstance e DownloadError = false /\ isinstance e Exception = true)
    by (destruct e as [c m|sc d]; [by destruct c | done]).
  destruct Hc as [Hd Hexc].
  erewrite download_music_failure; [| exact Hs |].
  2:{ unfold thread_run. erewrite do_download_handles.
      - rewrite Hd, Hexc. reflexivity.
      - right. right. eauto. }
  by rewrite (OSError_is_not_ValueError _ He), Hexc.
Qed.

Lemma unlistable_temp_dir_is_internal_error_witness :
  (download_music env_unlistable (req "m4a") empty_state).1
    = Raises (HTTPException 500 internal_error_detail)
  /\ tasks (download_music env_unlistable (req "m4a") empty_state).2 = [].
Proof.
  eapply (unlistable_temp_dir_is_internal_error env_unlistable (req "m4a")).
  - vm_compute. reflexivity.
  - reflexivity.
  - reflexivity.
  - reflexivity.
  - reflexivity.
Defined.

(** ** The records of a successful call *)

(** X19.  A successful call logs exactly two INFO records, the request
    and the filename that is sent, and that logged filename is the one
    the response carries. *)
Theorem success_is_logged_with_served_filename env request st r st' :
  download_music env request st = (Returns r, st') ->
  logs st' = (logs st ++ [(INFO, received_record request);
                          (INFO, "✅ Enviando archivo: " +:+ filename r)])%list.
Proof.
  intros Hrun.
  pose proof (download_music_returns_encodable _ _ _ _ _ Hrun) as Henc.
  destruct (download_music_returns_inv _ _ _ _ _ Hrun)
    as (s & final_path & title & st2 & Hs & Ht & -> & _).
  rewrite (download_music_success _ _ _ Hs _ _ _ _ Ht Henc) in Hrun.
  injection Hrun as <-. cbn.
  unfold thread_run in Ht.
  apply do_download_returns_inv in Ht as (_ & _ & _ & _ & _ & _ & _ & _ & ->).
  cbn. by rewrite <- app_assoc.
Qed.

Lemma success_is_logged_with_served_filename_witness :
  logs (download_music (env_ok (PyStr "a/b") [sample_id +:+ ".m4a"]) (req "m4a")
          empty_state).2
  = [(INFO, "📥 Solicitud de descarga recibida: https://example.com/watch?v=abc | Calidad: m4a");
     (INFO, "✅ Enviando archivo: a_b.m4a")].
Proof.
  apply (success_is_logged_with_served_filename
           (env_ok (PyStr "a/b") [sample_id +:+ ".m4a"]) (req "m4a") empty_state
           {| path := "/tmp/" +:+ sample_id +:+ ".m4a";
              filename := "a_b.m4a";
              media_type := "application/octet-stream" |}).
  vm_compute. reflexivity.
Defined.

(** ** The constructor of the response *)

(** X20.  When the thread has resolved the file and the filename holds a
    surrogate, the constructor of the response raises inside the [try]:
    the handler answers 400 with the text of the encoding error, after it
    logged the filename as sent and with the cleanup of the resolved path
    already queued. *)
Theorem unencodable_filename_is_client_error env request s st info title entries f e :
  QUALITY_SETTINGS !! quality request = Some s ->
  extract_info env (build_ydl_opts (TEMP_DIR env) (uuid4 env) s) (url request)
    = Returns info ->
  title_of info = Returns title ->
  listdir env (TEMP_DIR env) = Returns entries ->
  first_match (uuid4 env) entries = Some f ->
  utf8_encode_error (title +:+ "." +:+ ext s) = Some e ->
  download_music env request st =
    (Raises (HTTPException 400 (str e)),
     mkState (files st)
       (logs st ++ [(INFO, received_record request);
                    (INFO, "✅ Enviando archivo: " +:+ title +:+ "." +:+ ext s)])
       (tasks st ++ [os_path_join (TEMP_DIR env) f])).
Proof.
  intros Hs Hex Ht Hls Hf Henc.
  erewrite download_music_unencodable; [| exact Hs | | exact Henc].
  2:{ unfold thread_run. eapply do_download_found; eauto. }
  cbn. by rewrite <- app_assoc.
Qed.

Lemma unencodable_filename_is_client_error_witness :
  download_music (env_ok (PyStr surrogate_title) [sample_id +:+ ".mp3"])
    (req "mp3_320") empty_state =
    (Raises (HTTPException 400
       "'utf-8' codec can't encode character '\udc80' in position 5: surrogates not allowed"),
     mkState ∅
       [(INFO, "📥 Solicitud de descarga recibida: https://example.com/watch?v=abc | Calidad: mp3_320");
        (INFO, "✅ Enviando archivo: " +:+ surrogate_title +:+ ".mp3")]
       ["/tmp/" +:+ sample_id +:+ ".mp3"]).
Proof.
  eapply eq_trans.
  - eapply (unencodable_filename_is_client_error
              (env_ok (PyStr surrogate_title) [sample_id +:+ ".mp3"]) (req "mp3_320")
              _ empty_state _ surrogate_title [sample_id +:+ ".mp3"] (sample_id +:+ ".mp3")).
    + vm_compute. reflexivity.
    + reflexivity.
    + vm_compute. reflexivity.
    + reflexivity.
    + vm_compute. reflexivity.
    + vm_compute. reflexivity.
  - vm_compute. reflexivity.
Defined.
